(** * SurrealHTTP: the HTTP client of surrealdb.py

    A shallow embedding of [src/surrealdb/http.py].  The module is one class,
    [SurrealHTTP], whose methods turn a call into one HTTP request and
    post-process the decoded JSON answer.

    Conventions of the embedding

    - A Python [str] is a [string] whose characters are its code points; code
      points above 255 are outside the model.
    - JSON-like Python values ([Any], [dict[str, Any]], what [json.loads]
      returns) are the inductive [PyVal]; a [dict] is an association list in
      insertion order, its keys pairwise distinct.
    - An [async def] is a computation in the monad [M]: it reads and updates
      the [World] (the session objects, the calls made on them, the remote
      end) and ends in a value or in a raised exception.
    - What the module calls but does not define ([session.request] and the
      text of the answer, [json.loads], [float.__repr__]) is a [Platform]. *)

From Stdlib Require Import ZArith String Ascii List Floats.PrimFloat DecimalString.
From stdpp Require Import base gmap strings.
Import ListNotations.
Local Open Scope string_scope.

(** ** Python values *)

#[local] Unset Elimination Schemes.
Inductive PyVal : Type :=
| PNone
| PBool (b : bool)
| PInt (n : Z)
| PFloat (f : float)
| PStr (s : string)
| PList (items : list PyVal)
| PDict (entries : list (string * PyVal)).
#[local] Set Elimination Schemes.

(** [bool(v)]: what [not v] and [if v] test. *)
Definition truthy (v : PyVal) : bool :=
  match v with
  | PNone => false
  | PBool b => b
  | PInt n => negb (n =? 0)%Z
  | PFloat f => negb (PrimFloat.eqb f 0%float)
  | PStr s => negb (String.eqb s EmptyString)
  | PList items => negb (Nat.eqb (length items) 0)
  | PDict entries => negb (Nat.eqb (length entries) 0)
  end.

(** [d.get(key)] on an insertion-ordered dict. *)
Fixpoint dict_get (entries : list (string * PyVal)) (key : string) : option PyVal :=
  match entries with
  | [] => None
  | (k, v) :: rest => if String.eqb k key then Some v else dict_get rest key
  end.

(** ** Exceptions and results *)

(** An exception is named by where it is raised, not by its place in
    Python's class hierarchy: [JSONDecodeError] is what [json.loads] raises
    (in Python a subclass of ValueError), and [TransportError what] is
    whatever the aiohttp session raises, of any class.  [ValueError],
    [IndexError], [KeyError] and [TypeError] are the ones raised by the
    unpacking, by [aiohttp.BasicAuth] and by the subscripts.  No statement
    below reads the constructors as disjoint Python classes. *)
Inductive PyExc : Type :=
| SurrealException (msg : string)   (* the module's own exception class *)
| ValueError
| IndexError
| KeyError (key : PyVal)
| TypeError
| JSONDecodeError                   (* raised by json.loads *)
| TransportError (what : string).   (* whatever the aiohttp session raises *)

Inductive Result (A : Type) : Type :=
| Ok (a : A)
| Raise (e : PyExc).
Arguments Ok {A} a.
Arguments Raise {A} e.

Definition is_SurrealException {A} (r : Result A) : bool :=
  match r with
  | Raise (SurrealException _) => true
  | _ => false
  end.

(** ** Subscripting: [response[0]] and [x["result"]] *)

(** [v[0]].  A list or a str yields its first element or raises IndexError;
    a dict has str keys only, so the key [0] is missing; the other values are
    not subscriptable. *)
Definition getitem0 (v : PyVal) : Result PyVal :=
  match v with
  | PList [] => Raise IndexError
  | PList (x :: _) => Ok x
  | PStr EmptyString => Raise IndexError
  | PStr (String c _) => Ok (PStr (String c EmptyString))
  | PDict _ => Raise (KeyError (PInt 0))
  | PNone | PBool _ | PInt _ | PFloat _ => Raise TypeError
  end.

(** [v[key]] for a str [key].  Only a dict accepts a str subscript. *)
Definition getitem_str (v : PyVal) (key : string) : Result PyVal :=
  match v with
  | PDict entries =>
      match dict_get entries key with
      | Some x => Ok x
      | None => Raise (KeyError (PStr key))
      end
  | _ => Raise TypeError
  end.

(** [response[0]["result"]], the last line of select, create, update, patch. *)
Definition first_result (response : PyVal) : Result PyVal :=
  match getitem0 response with
  | Ok envelope => getitem_str envelope "result"
  | Raise e => Raise e
  end.

(** ** str operations used by the module *)

(** [c in s] for a one-character [c]. *)
Fixpoint contains (c : ascii) (s : string) : bool :=
  match s with
  | EmptyString => false
  | String a rest => Ascii.eqb a c || contains c rest
  end.

(** [s.split(c)] for a one-character separator: every occurrence of [c]
    separates two fields, so the result has one more field than [s] has
    separators. *)
Fixpoint split (c : ascii) (s : string) : list string :=
  match s with
  | EmptyString => [EmptyString]
  | String a rest =>
      if Ascii.eqb a c then EmptyString :: split c rest
      else match split c rest with
           | [] => [String a EmptyString]
           | field :: fields => String a field :: fields
           end
  end.

Definition colon : ascii := ":"%char.

(** [a, b = fields]: unpacking into exactly two targets. *)
Definition unpack2 (fields : list string) : Result (string * string) :=
  match fields with
  | [a; b] => Ok (a, b)
  | _ => Raise ValueError
  end.

(** [table, record_id = thing.split(":") if ":" in thing else (thing, None)] *)
Definition split_thing (thing : string) : Result (string * option string) :=
  if contains colon thing then
    match unpack2 (split colon thing) with
    | Ok (table, record_id) => Ok (table, Some record_id)
    | Raise e => Raise e
    end
  else Ok (thing, None).

(** [bool(record_id)] for [record_id : str | None]. *)
Definition truthy_opt (record_id : option string) : bool :=
  match record_id with
  | None => false
  | Some s => negb (String.eqb s EmptyString)
  end.

(** [record_id is not None]. *)
Definition is_not_None (record_id : option string) : bool :=
  match record_id with
  | None => false
  | Some _ => true
  end.

(** [f"{record_id}"] for [record_id : str | None]. *)
Definition format_opt (record_id : option string) : string :=
  match record_id with
  | None => "None"
  | Some s => s
  end.

(** [f"/key/{table}/{record_id}" if record_id else f"/key/{table}"] *)
Definition key_uri (table : string) (record_id : option string) : string :=
  if truthy_opt record_id
  then "/key/" +:+ table +:+ "/" +:+ format_opt record_id
  else "/key/" +:+ table.

(** [f"Key {record_id} not found in table {table}"] *)
Definition not_found_message (table : string) (record_id : option string) : string :=
  "Key " +:+ format_opt record_id +:+ " not found in table " +:+ table.

(** ** [json.dumps]

    The encoder of Python's [json] module with its default separators
    ([", "] between items, [": "] after a key), parameterised by
    [ensure_ascii] and by the text of a finite float. *)

Definition dquote : ascii := "034"%char.
Definition backslash : ascii := "092"%char.
Definition char (c : ascii) : string := String c EmptyString.

Definition hex_digit (n : N) : ascii :=
  match n with
  | 0 => "0" | 1 => "1" | 2 => "2" | 3 => "3" | 4 => "4" | 5 => "5"
  | 6 => "6" | 7 => "7" | 8 => "8" | 9 => "9" | 10 => "a" | 11 => "b"
  | 12 => "c" | 13 => "d" | 14 => "e" | _ => "f"
  end%N%char.

(** ['\\u{0:04x}'.format(n)] for a code point below 256. *)
Definition u_escape (n : N) : string :=
  char backslash +:+ "u00" +:+ char (hex_digit (n / 16)) +:+ char (hex_digit (n mod 16)).

(** The replacement of one character: [ESCAPE_DCT], and under
    [ensure_ascii] also every character outside [' '..'~']. *)
Definition escape_char (ensure_ascii : bool) (c : ascii) : string :=
  let n := N_of_ascii c in
  if Ascii.eqb c backslash then char backslash +:+ char backslash
  else if Ascii.eqb c dquote then char backslash +:+ char dquote
  else if (n =? 8)%N then char backslash +:+ "b"
  else if (n =? 12)%N then char backslash +:+ "f"
  else if (n =? 10)%N then char backslash +:+ "n"
  else if (n =? 13)%N then char backslash +:+ "r"
  else if (n =? 9)%N then char backslash +:+ "t"
  else if (n <? 32)%N then u_escape n
  else if ensure_ascii && (126 <? n)%N then u_escape n
  else char c.

Fixpoint escape (ensure_ascii : bool) (s : string) : string :=
  match s with
  | EmptyString => EmptyString
  | String c rest => escape_char ensure_ascii c +:+ escape ensure_ascii rest
  end.

(** [encode_basestring] / [encode_basestring_ascii]: the quoted text. *)
Definition quoted (s : string) : string := char dquote +:+ s +:+ char dquote.
Definition encode_str (ensure_ascii : bool) (s : string) : string :=
  quoted (escape ensure_ascii s).

(** [int.__repr__] *)
Definition repr_int (n : Z) : string := NilZero.string_of_int (Z.to_int n).

Section Dumps.
Variable float_repr : float -> string.
Variable ensure_ascii : bool.

(** [floatstr] of [json.encoder]. *)
Definition floatstr (o : float) : string :=
  if negb (PrimFloat.eqb o o) then "NaN"
  else if PrimFloat.eqb o infinity then "Infinity"
  else if PrimFloat.eqb o neg_infinity then "-Infinity"
  else float_repr o.

Fixpoint json_dumps (o : PyVal) : string :=
  match o with
  | PNone => "null"
  | PBool true => "true"
  | PBool false => "false"
  | PInt n => repr_int n
  | PFloat f => floatstr f
  | PStr s => encode_str ensure_ascii s
  | PList items =>
      "[" +:+
      (fix dump_items (l : list PyVal) : string :=
         match l with
         | [] => EmptyString
         | x :: l' =>
             match l' with
             | [] => json_dumps x
             | _ :: _ => json_dumps x +:+ ", " +:+ dump_items l'
             end
         end) items +:+ "]"
  | PDict entries =>
      "{" +:+
      (fix dump_entries (l : list (string * PyVal)) : string :=
         match l with
         | [] => EmptyString
         | (k, v) :: l' =>
             let entry := encode_str ensure_ascii k +:+ ": " +:+ json_dumps v in
             match l' with
             | [] => entry
             | _ :: _ => entry +:+ ", " +:+ dump_entries l'
             end
         end) entries +:+ "}"
  end.
End Dumps.

(** ** The aiohttp objects the client handles *)

(** [aiohttp.BasicAuth], a named tuple of login, password and encoding. *)
Module BasicAuth.
Record t : Type := Build { login : string; password : string; encoding : string }.
End BasicAuth.

(** The constructor [aiohttp.BasicAuth(login=..., password=...)]: it refuses
    a login with a colon in it (ValueError) and defaults the encoding. *)
Definition aiohttp_BasicAuth (login password : string) : Result BasicAuth.t :=
  if contains colon login then Raise ValueError
  else Ok (BasicAuth.Build login password "latin1").

(** The keyword arguments of one call [session.request(...)]. *)
Module Request.
Record t : Type := Build {
  method : string;
  url : string;
  data : option string;              (* str | None *)
  params : PyVal;                    (* Any | None *)
  headers : list (string * string);  (* dict[str, str], insertion order *)
  auth : BasicAuth.t
}.
End Request.

(** An [aiohttp.ClientSession] object, as far as the client can tell. *)
Inductive SessionState : Type := Open | Closed.

(** What awaiting [session.request(...)] and then [.text()] gives. *)
Inductive Reply : Type :=
| Body (text : string)
| Failure (what : string).

(** The platform under the module: the remote end with its state, reached
    through [session.request]; [json.loads] ([None] for a text that is not
    JSON); and [float.__repr__], used by [json.dumps]. *)
Class Platform : Type := {
  Net : Type;
  transport : Net -> option SessionState -> Request.t -> Net * Reply;
  json_loads : string -> option PyVal;
  float_repr : float -> string
}.

Section Client.
Context {platform : Platform}.

(** The heap of session objects by handle, the calls made on sessions so
    far (newest first, each with the handle of its session), and the
    remote end. *)
Record World : Type := mkWorld {
  sessions : gmap nat SessionState;
  calls : list (nat * Request.t);
  net : Net
}.

(** ** The monad of [async def] bodies *)

Definition M (A : Type) : Type := World -> Result A * World.

Definition ret {A} (a : A) : M A := fun w => (Ok a, w).
Definition raise {A} (e : PyExc) : M A := fun w => (Raise e, w).
Definition lift {A} (r : Result A) : M A := fun w => (r, w).
Definition bind {A B} (c : M A) (k : A -> M B) : M B :=
  fun w =>
    match c w with
    | (Ok a, w') => k a w'
    | (Raise e, w') => (Raise e, w')
    end.

Notation "x <- c ;; k" := (bind c (fun x => k))
  (at level 100, c at next level, right associativity).

(** [aiohttp.ClientSession()]: a new open session under a fresh handle. *)
Definition ClientSession (w : World) : nat * World :=
  let h := fresh (dom (sessions w)) in
  (h, mkWorld (<[h := Open]> (sessions w)) (calls w) (net w)).

(** [await session.close()].  aiohttp closes an open session and does
    nothing to a closed one: either way the session is closed afterwards. *)
Definition session_close (h : nat) : M unit :=
  fun w => (Ok tt, mkWorld (<[h := Closed]> (sessions w)) (calls w) (net w)).

(** [async with session.request(...) as r: await r.text()]: the call is
    recorded, the platform answers. *)
Definition session_request (h : nat) (rq : Request.t) : M string :=
  fun w =>
    let '(net', reply) := transport (net w) (sessions w !! h) rq in
    let w' := mkWorld (sessions w) ((h, rq) :: calls w) net' in
    match reply with
    | Body text => (Ok text, w')
    | Failure what => (Raise (TransportError what), w')
    end.

(** [json.loads(text)] *)
Definition loads (text : string) : Result PyVal :=
  match json_loads text with
  | Some v => Ok v
  | None => Raise JSONDecodeError
  end.

(** ** class SurrealHTTP *)

Record SurrealHTTP : Type := mkSurrealHTTP {
  _url : string;
  _namespace : string;
  _database : string;
  _username : string;
  _password : string;
  _session : nat;
  _should_close_session : bool
}.

Definition __init__ (url namespace database username password : string)
    (session : option nat) (w : World) : SurrealHTTP * World :=
  match session with
  | None =>
      let '(h, w') := ClientSession w in
      (mkSurrealHTTP url namespace database username password h true, w')
  | Some h =>
      (mkSurrealHTTP url namespace database username password h false, w)
  end.

Definition make_headers (self : SurrealHTTP) : list (string * string) :=
  [("NS", _namespace self);
   ("DB", _database self);
   ("Accept", "application/json");
   ("Content-Type", "application/json")].

Definition _generate_headers_and_auth (self : SurrealHTTP)
    : Result (list (string * string) * BasicAuth.t) :=
  let headers := make_headers self in
  match aiohttp_BasicAuth (_username self) (_password self) with
  | Ok auth => Ok (headers, auth)
  | Raise e => Raise e
  end.

Definition __aenter__ (self : SurrealHTTP) : M SurrealHTTP := ret self.

Definition close (self : SurrealHTTP) : M unit :=
  if _should_close_session self then session_close (_session self)
  else ret tt.

Definition __aexit__ (self : SurrealHTTP) : M unit := close self.

Definition _request (self : SurrealHTTP) (method uri : string)
    (data : option string) (params : PyVal) : M PyVal :=
  generated <- lift (_generate_headers_and_auth self) ;;
  let '(headers, auth) := generated in
  surreal_data <-
    session_request (_session self)
      (Request.Build method (_url self +:+ uri) data params headers auth) ;;
  lift (loads surreal_data).

Definition signup (self : SurrealHTTP) (vars : PyVal) : M PyVal :=
  _request self "POST" "/signup" (Some (json_dumps float_repr true vars)) PNone.

Definition signin (self : SurrealHTTP) (vars : PyVal) : M PyVal :=
  _request self "POST" "/signin" (Some (json_dumps float_repr true vars)) PNone.

Definition query (self : SurrealHTTP) (sql : string) (vars : PyVal) : M PyVal :=
  _request self "POST" "/sql" (Some sql) vars.

Definition select (self : SurrealHTTP) (thing : string) : M PyVal :=
  parts <- lift (split_thing thing) ;;
  let '(table, record_id) := parts in
  response <- _request self "GET" (key_uri table record_id) None PNone ;;
  if negb (truthy response) && is_not_None record_id
  then raise (SurrealException (not_found_message table record_id))
  else lift (first_result response).

Definition create (self : SurrealHTTP) (thing : string) (data : PyVal) : M PyVal :=
  parts <- lift (split_thing thing) ;;
  let '(table, record_id) := parts in
  response <- _request self "POST" (key_uri table record_id)
                (Some (json_dumps float_repr false data)) PNone ;;
  if negb (truthy response) && is_not_None record_id
  then raise (SurrealException (not_found_message table record_id))
  else lift (first_result response).

Definition update (self : SurrealHTTP) (thing : string) (data : PyVal) : M PyVal :=
  parts <- lift (split_thing thing) ;;
  let '(table, record_id) := parts in
  response <- _request self "PUT" (key_uri table record_id)
                (Some (json_dumps float_repr false data)) PNone ;;
  lift (first_result response).

Definition patch (self : SurrealHTTP) (thing : string) (data : PyVal) : M PyVal :=
  parts <- lift (split_thing thing) ;;
  let '(table, record_id) := parts in
  response <- _request self "PATCH" (key_uri table record_id)
                (Some (json_dumps float_repr false data)) PNone ;;
  lift (first_result response).

Definition delete (self : SurrealHTTP) (thing : string) : M PyVal :=
  parts <- lift (split_thing thing) ;;
  let '(table, record_id) := parts in
  _request self "DELETE" (key_uri table record_id) None PNone.

(** ** Calls on a client *)

(** The eight request-issuing methods with their arguments. *)
Inductive Operation : Type :=
| Signup (vars : PyVal)
| Signin (vars : PyVal)
| Query (sql : string) (vars : PyVal)
| Select (thing : string)
| Create (thing : string) (data : PyVal)
| Update (thing : string) (data : PyVal)
| Patch (thing : string) (data : PyVal)
| Delete (thing : string).

Definition run (self : SurrealHTTP) (op : Operation) : M PyVal :=
  match op with
  | Signup vars => signup self vars
  | Signin vars => signin self vars
  | Query sql vars => query self sql vars
  | Select thing => select self thing
  | Create thing data => create self thing data
  | Update thing data => update self thing data
  | Patch thing data => patch self thing data
  | Delete thing => delete self thing
  end.

(** A statement of a caller's block: a method call whose value is dropped,
    or [await db.close()]. *)
Inductive Statement : Type :=
| Call (op : Operation)
| CloseNow.

Definition exec (db : SurrealHTTP) (st : Statement) : M unit :=
  match st with
  | Call op => _ <- run db op ;; ret tt
  | CloseNow => close db
  end.

(** A block runs its statements in order and stops at the first exception. *)
Fixpoint block (db : SurrealHTTP) (body : list Statement) : M unit :=
  match body with
  | [] => ret tt
  | st :: rest => _ <- exec db st ;; block db rest
  end.

(** [async with SurrealHTTP(...) as db: body].  The manager is entered, the
    body runs, and [__aexit__] is awaited whether the body raised or not;
    it returns None, so an exception of the body is raised again. *)
Definition async_with {A} (construct : World -> SurrealHTTP * World)
    (body : SurrealHTTP -> M A) : M A :=
  fun w =>
    let '(mgr, w1) := construct w in
    match __aenter__ mgr w1 with
    | (Raise e, w2) => (Raise e, w2)
    | (Ok db, w2) =>
        let '(r, w3) := body db w2 in
        match __aexit__ mgr w3 with
        | (Ok _, w4) => (r, w4)
        | (Raise e, w4) => (Raise e, w4)
        end
    end.

(** ** Vocabulary of the statements below *)

(** The request a method hands to the session: [uri] is appended to the
    base URL and the headers are those of [self]. *)
Definition request_of (self : SurrealHTTP) (method uri : string)
    (data : option string) (params : PyVal) (auth : BasicAuth.t) : Request.t :=
  Request.Build method (_url self +:+ uri) data params (make_headers self) auth.

(** The Basic Auth every request of [self] carries. *)
Definition auth_of (self : SurrealHTTP) : BasicAuth.t :=
  BasicAuth.Build (_username self) (_password self) "latin1".

(** What [_request] returns for a reply: the decoded text, as it is. *)
Definition decoded (reply : Reply) : Result PyVal :=
  match reply with
  | Body text => loads text
  | Failure what => Raise (TransportError what)
  end.

(** The value [_request] returns when [self] sends [rq] in world [w]. *)
Definition response_to (self : SurrealHTTP) (rq : Request.t) (w : World) : Result PyVal :=
  decoded (snd (transport (net w) (sessions w !! _session self) rq)).

(** The world after [self] has sent [rq] in world [w]. *)
Definition after_request (self : SurrealHTTP) (rq : Request.t) (w : World) : World :=
  mkWorld (sessions w) ((_session self, rq) :: calls w)
          (fst (transport (net w) (sessions w !! _session self) rq)).

(** Unwrapping a response that may be an exception. *)
Definition unwrapped (r : Result PyVal) : Result PyVal :=
  match r with
  | Ok response => first_result response
  | Raise e => Raise e
  end.

(** The thing an operation addresses, if it takes one. *)
Definition thing_of (op : Operation) : option string :=
  match op with
  | Signup _ | Signin _ | Query _ _ => None
  | Select thing | Create thing _ | Update thing _ | Patch thing _ | Delete thing => Some thing
  end.

(** Whether [run self op] reaches [session.request]: the thing unpacks into
    two parts and aiohttp accepts the login. *)
Definition reaches_session (self : SurrealHTTP) (op : Operation) : bool :=
  match thing_of op with
  | Some thing => match split_thing thing with Ok _ => true | Raise _ => false end
  | None => true
  end
  && negb (contains colon (_username self)).

(** The identity a request carries: the four headers, in the order the
    module builds them, and the Basic Auth of the user. *)
Definition carries_identity (namespace database username password : string)
    (rq : Request.t) : Prop :=
  Request.headers rq =
    [("NS", namespace); ("DB", database);
     ("Accept", "application/json"); ("Content-Type", "application/json")]
  /\ Request.auth rq = BasicAuth.Build username password "latin1".

End Client.

(** ** The spec's reading of a thing: split on the first colon *)

(** The text before the first [c], and the text after it if there is one. *)
Fixpoint partition_first (c : ascii) (s : string) : string * option string :=
  match s with
  | EmptyString => (EmptyString, None)
  | String a rest =>
      if Ascii.eqb a c then (EmptyString, Some rest)
      else let '(before, after) := partition_first c rest in (String a before, after)
  end.

(** The number of occurrences of [c] in [s]. *)
Fixpoint count (c : ascii) (s : string) : nat :=
  match s with
  | EmptyString => 0
  | String a rest => (if Ascii.eqb a c then 1 else 0) + count c rest
  end.

(** ** A platform for the examples

    The remote end answers every request with the text of an empty JSON
    list and counts the requests it has served; the decoder knows that text
    and the text of one envelope.  No float occurs in the examples. *)

Definition one_envelope : PyVal :=
  PList [PDict [("time", PStr "1ms"); ("status", PStr "OK"); ("result", PList [])]].

Definition one_envelope_text : string :=
  "[{" +:+ quoted "time" +:+ ": " +:+ quoted "1ms" +:+ ", " +:+ quoted "status" +:+ ": "
  +:+ quoted "OK" +:+ ", " +:+ quoted "result" +:+ ": []}]".

Definition literal_loads (text : string) : option PyVal :=
  if String.eqb text "[]" then Some (PList [])
  else if String.eqb text one_envelope_text then Some one_envelope
  else None.

Definition empty_list_platform : Platform := {|
  Net := nat;
  transport := fun served _ _ => (S served, Body "[]");
  json_loads := literal_loads;
  float_repr := fun _ => "0.0"
|}.

(** A remote end that answers every request with one envelope. *)
Definition envelope_platform : Platform := {|
  Net := nat;
  transport := fun served _ _ => (S served, Body one_envelope_text);
  json_loads := literal_loads;
  float_repr := fun _ => "0.0"
|}.

Definition fresh_world {platform : Platform} (n : Net) : World := mkWorld ∅ [] n.

(** [SurrealHTTP("http://localhost:8000", "test", "test", "root", "root")] in
    a world with no session yet. *)
Definition demo_client (platform : Platform) (n : @Net platform) : SurrealHTTP * World :=
  __init__ "http://localhost:8000" "test" "test" "root" "root" None (fresh_world n).

(** The example client and its world, against each example platform. *)
Definition root_auth : BasicAuth.t := BasicAuth.Build "root" "root" "latin1".
Definition identity_headers : list (string * string) :=
  [("NS", "test"); ("DB", "test");
   ("Accept", "application/json"); ("Content-Type", "application/json")].

Definition db0 : SurrealHTTP := fst (demo_client empty_list_platform 0).
Definition w0 : @World empty_list_platform := snd (demo_client empty_list_platform 0).
Definition db1 : SurrealHTTP := fst (demo_client envelope_platform 0).
Definition w1 : @World envelope_platform := snd (demo_client envelope_platform 0).

Definition tobie : PyVal := PDict [("name", PStr "Tobie")].
Definition tobie_text : string := "{" +:+ quoted "name" +:+ ": " +:+ quoted "Tobie" +:+ "}".

(** ** Vocabulary of the further properties *)

(** The methods that end in [response[0]["result"]]. *)
Definition returns_unwrapped (op : Operation) : bool :=
  match op with
  | Select _ | Create _ _ | Update _ _ | Patch _ _ => true
  | Signup _ | Signin _ | Query _ _ | Delete _ => false
  end.

(** The methods with the test [not response and record_id is not None]. *)
Definition checks_not_found (op : Operation) : bool :=
  match op with
  | Select _ | Create _ _ => true
  | _ => false
  end.

(** The table and the record id a call parses from its thing, when it has
    a thing and the thing parses. *)
Definition parsed (op : Operation) : option (string * option string) :=
  match thing_of op with
  | Some thing =>
      match split_thing thing with
      | Ok parts => Some parts
      | Raise _ => None
      end
  | None => None
  end.

(** The characters [' '] to ['~']. *)
Definition printable (c : ascii) : bool :=
  (32 <=? N_of_ascii c)%N && (N_of_ascii c <=? 126)%N.

Fixpoint printable_ascii (s : string) : bool :=
  match s with
  | EmptyString => true
  | String c rest => printable c && printable_ascii rest
  end.

(** A remote end that answers every request with a JSON object, not a list
    of envelopes, and a decoder that knows that text. *)
Definition refusal : PyVal :=
  PDict [("code", PInt 400); ("information", PStr "There is a problem with your request")].

Definition refusal_text : string :=
  "{" +:+ quoted "code" +:+ ": 400, " +:+ quoted "information" +:+ ": "
  +:+ quoted "There is a problem with your request" +:+ "}".

Definition refusal_platform : Platform := {|
  Net := nat;
  transport := fun served _ _ => (S served, Body refusal_text);
  json_loads := fun text => if String.eqb text refusal_text then Some refusal else None;
  float_repr := fun _ => "0.0"
|}.

Definition db2 : SurrealHTTP := fst (demo_client refusal_platform 0).
Definition w2 : @World refusal_platform := snd (demo_client refusal_platform 0).

(** A remote end that cannot be reached, and one that answers with a text
    that is not JSON. *)
Definition unreachable_platform : Platform := {|
  Net := nat;
  transport := fun served _ _ => (S served, Failure "Cannot connect to host");
  json_loads := literal_loads;
  float_repr := fun _ => "0.0"
|}.

Definition garbled_platform : Platform := {|
  Net := nat;
  transport := fun served _ _ => (S served, Body "<html>");
  json_loads := literal_loads;
  float_repr := fun _ => "0.0"
|}.

Definition db3 : SurrealHTTP := fst (demo_client unreachable_platform 0).
Definition w3 : @World unreachable_platform := snd (demo_client unreachable_platform 0).
Definition db4 : SurrealHTTP := fst (demo_client garbled_platform 0).
Definition w4 : @World garbled_platform := snd (demo_client garbled_platform 0).

(** A remote end reached through aiohttp's own guard: a session that is
    not open refuses the request. *)
Definition guarded_platform : Platform := {|
  Net := nat;
  transport := fun served state _ =>
    match state with
    | Some Open => (S served, Body "[]")
    | _ => (served, Failure "Session is closed")
    end;
  json_loads := literal_loads;
  float_repr := fun _ => "0.0"
|}.

Definition db5 : SurrealHTTP := fst (demo_client guarded_platform 0).
Definition w5 : @World guarded_platform := snd (demo_client guarded_platform 0).

(** The characters [json.dumps(..., ensure_ascii=False)] leaves as they
    are: no control character, no quote, no backslash. *)
Definition unescaped (c : ascii) : bool :=
  (32 <=? N_of_ascii c)%N && negb (Ascii.eqb c dquote) && negb (Ascii.eqb c backslash).

Fixpoint all_unescaped (s : string) : bool :=
  match s with
  | EmptyString => true
  | String c rest => unescaped c && all_unescaped rest
  end.

(** A remote end that answers every request with one envelope whose result
    is one record, and a decoder that knows that text. *)
Definition tobie_record : PyVal :=
  PDict [("id", PStr "person:tobie"); ("name", PStr "Tobie")].

Definition record_envelope : PyVal :=
  PList [PDict [("time", PStr "1ms"); ("status", PStr "OK"); ("result", PList [tobie_record])]].

Definition record_envelope_text : string :=
  json_dumps (fun _ => "0.0") false record_envelope.

Definition record_platform : Platform := {|
  Net := nat;
  transport := fun served _ _ => (S served, Body record_envelope_text);
  json_loads := fun text =>
    if String.eqb text record_envelope_text then Some record_envelope else literal_loads text;
  float_repr := fun _ => "0.0"
|}.

Definition db6 : SurrealHTTP := fst (demo_client record_platform 0).
Definition w6 : @World record_platform := snd (demo_client record_platform 0).

(** A remote end that answers the requests of one method with an empty
    list and all the others with one envelope. *)
Definition one_method_empty (method : string) : Platform := {|
  Net := nat;
  transport := fun served _ rq =>
    (S served,
     Body (if String.eqb (Request.method rq) method then "[]" else one_envelope_text));
  json_loads := literal_loads;
  float_repr := fun _ => "0.0"
|}.

Definition db_get : SurrealHTTP := fst (demo_client (one_method_empty "GET") 0).
Definition w_get : @World (one_method_empty "GET") :=
  snd (demo_client (one_method_empty "GET") 0).
Definition db_post : SurrealHTTP := fst (demo_client (one_method_empty "POST") 0).
Definition w_post : @World (one_method_empty "POST") :=
  snd (demo_client (one_method_empty "POST") 0).

(** * Properties *)

(** ** Splitting a thing *)

Lemma split_length (c : ascii) (s : string) :
  length (split c s) = S (count c s).
Proof.
  induction s as [|a rest IH]; simpl; [reflexivity|].
  destruct (Ascii.eqb a c); simpl.
  - now rewrite IH.
  - destruct (split c rest); simpl in *; lia.
Qed.

Lemma contains_count (c : ascii) (s : string) :
  contains c s = negb (Nat.eqb (count c s) 0).
Proof.
  induction s as [|a rest IH]; simpl; [reflexivity|].
  destruct (Ascii.eqb a c); simpl; [reflexivity|exact IH].
Qed.

Lemma count_app (c : ascii) (s t : string) :
  count c (s +:+ t) = count c s + count c t.
Proof.
  induction s as [|a rest IH]; simpl; [reflexivity|].
  rewrite IH. lia.
Qed.

Lemma split_no_separator (c : ascii) (s : string) :
  count c s = 0 -> split c s = [s].
Proof.
  induction s as [|a rest IH]; simpl; [reflexivity|].
  destruct (Ascii.eqb a c); simpl; [discriminate|].
  intros H. now rewrite (IH H).
Qed.

Lemma partition_first_no_separator (c : ascii) (s : string) :
  count c s = 0 -> partition_first c s = (s, None).
Proof.
  induction s as [|a rest IH]; simpl; [reflexivity|].
  destruct (Ascii.eqb a c); simpl; [discriminate|].
  intros H. now rewrite (IH H).
Qed.

Lemma split_one_separator (c : ascii) (s : string) :
  count c s = 1 ->
  exists before after,
    partition_first c s = (before, Some after) /\ split c s = [before; after].
Proof.
  induction s as [|a rest IH]; simpl; [discriminate|].
  destruct (Ascii.eqb a c); simpl.
  - intros H. exists EmptyString, rest. split; [reflexivity|].
    rewrite split_no_separator; [reflexivity|lia].
  - intros H. destruct (IH H) as (before & after & Hp & Hs).
    exists (String a before), after. now rewrite Hp, Hs.
Qed.

(** A thing without a colon is a table: no record id. *)
Lemma split_thing_table (thing : string) :
  count colon thing = 0 -> split_thing thing = Ok (thing, None).
Proof.
  intros H. unfold split_thing. now rewrite contains_count, H.
Qed.

(** A thing with exactly one colon is split at it. *)
Lemma split_thing_record (thing : string) :
  count colon thing = 1 ->
  exists table record_id,
    partition_first colon thing = (table, Some record_id)
    /\ split_thing thing = Ok (table, Some record_id).
Proof.
  intros H. destruct (split_one_separator _ _ H) as (table & record_id & Hp & Hs).
  exists table, record_id. split; [exact Hp|].
  unfold split_thing. now rewrite contains_count, H, Hs.
Qed.

(** A thing with two colons or more does not unpack into two targets. *)
Lemma split_thing_too_many (thing : string) :
  2 <= count colon thing -> split_thing thing = Raise ValueError.
Proof.
  intros H. unfold split_thing. rewrite contains_count.
  destruct (count colon thing) as [|[|n]] eqn:Hc; [lia|lia|]. simpl.
  pose proof (split_length colon thing) as Hl. rewrite Hc in Hl.
  destruct (split colon thing) as [|a [|b [|x l]]]; simpl in Hl; try lia.
  reflexivity.
Qed.

(** The three cases together: the module's split agrees with the split on
    the first colon exactly when the thing has at most one colon. *)
Lemma split_thing_cases (thing : string) :
  split_thing thing =
    if Nat.leb (count colon thing) 1 then Ok (partition_first colon thing)
    else Raise ValueError.
Proof.
  destruct (count colon thing) as [|[|n]] eqn:Hc; simpl.
  - now rewrite split_thing_table, partition_first_no_separator.
  - destruct (split_thing_record _ Hc) as (t & r & Hp & Hs). now rewrite Hs, Hp.
  - apply split_thing_too_many. lia.
Qed.

Lemma key_uri_table (table : string) : key_uri table None = "/key/" +:+ table.
Proof. reflexivity. Qed.

Lemma key_uri_empty_id (table : string) : key_uri table (Some EmptyString) = "/key/" +:+ table.
Proof. reflexivity. Qed.

Lemma key_uri_record (table : string) (c : ascii) (id : string) :
  key_uri table (Some (String c id)) = "/key/" +:+ table +:+ "/" +:+ String c id.
Proof. reflexivity. Qed.

(** [response[0]["result"]] raises a built-in exception or returns; it never
    raises the module's exception. *)
Lemma first_result_not_SurrealException (response : PyVal) :
  is_SurrealException (first_result response) = false.
Proof.
  unfold first_result.
  destruct response as [| | | |s|items|entries]; simpl; try reflexivity.
  - destruct s; reflexivity.
  - destruct items as [|x items]; simpl; [reflexivity|].
    destruct x; simpl; try reflexivity.
    destruct (dict_get _ _); reflexivity.
Qed.

Section Properties.
Context {platform : Platform}.

Notation "x <- c ;; k" := (bind c (fun x => k))
  (at level 100, c at next level, right associativity).

(** ** The request primitive *)

Lemma _request_sends (self : SurrealHTTP) (method uri : string)
    (data : option string) (params : PyVal) (auth : BasicAuth.t) (w : World) :
  aiohttp_BasicAuth (_username self) (_password self) = Ok auth ->
  let rq := request_of self method uri data params auth in
  _request self method uri data params w = (response_to self rq w, after_request self rq w).
Proof.
  intros Hauth rq. subst rq.
  unfold _request, bind, lift, _generate_headers_and_auth, request_of.
  rewrite Hauth. unfold session_request, response_to, after_request, decoded.
  destruct (transport _ _ _) as [n reply]. simpl. destruct reply; reflexivity.
Qed.

Lemma _request_refused (self : SurrealHTTP) (method uri : string)
    (data : option string) (params : PyVal) (w : World) :
  contains colon (_username self) = true ->
  _request self method uri data params w = (Raise ValueError, w).
Proof.
  intros H. unfold _request, bind, lift, _generate_headers_and_auth, aiohttp_BasicAuth.
  now rewrite H.
Qed.

Lemma aiohttp_BasicAuth_accepts (login password : string) :
  contains colon login = false ->
  aiohttp_BasicAuth login password = Ok (BasicAuth.Build login password "latin1").
Proof. intros H. unfold aiohttp_BasicAuth. now rewrite H. Qed.

(** ** What each method does, once the thing is split and the login accepted *)

Ltac run_method Hsplit Hauth :=
  unfold select, create, update, patch, delete, signup, signin, query, bind, lift;
  try rewrite Hsplit; cbn beta iota;
  rewrite (_request_sends _ _ _ _ _ _ _ Hauth); cbn beta iota zeta;
  try (destruct (response_to _ _ _) as [response|e]; [|reflexivity]);
  try reflexivity.

Lemma query_runs (self : SurrealHTTP) (sql : string) (vars : PyVal)
    (auth : BasicAuth.t) (w : World) :
  aiohttp_BasicAuth (_username self) (_password self) = Ok auth ->
  let rq := request_of self "POST" "/sql" (Some sql) vars auth in
  query self sql vars w = (response_to self rq w, after_request self rq w).
Proof. intros Hauth rq. subst rq. run_method Hauth Hauth. Qed.

Lemma select_runs (self : SurrealHTTP) (thing table : string)
    (record_id : option string) (auth : BasicAuth.t) (w : World) :
  split_thing thing = Ok (table, record_id) ->
  aiohttp_BasicAuth (_username self) (_password self) = Ok auth ->
  let rq := request_of self "GET" (key_uri table record_id) None PNone auth in
  select self thing w =
    (match response_to self rq w with
     | Ok response =>
         if negb (truthy response) && is_not_None record_id
         then Raise (SurrealException (not_found_message table record_id))
         else first_result response
     | Raise e => Raise e
     end, after_request self rq w).
Proof.
  intros Hsplit Hauth rq. subst rq. run_method Hsplit Hauth.
  unfold raise. now destruct (negb (truthy response) && is_not_None record_id).
Qed.

Lemma create_runs (self : SurrealHTTP) (thing table : string)
    (record_id : option string) (data : PyVal) (auth : BasicAuth.t) (w : World) :
  split_thing thing = Ok (table, record_id) ->
  aiohttp_BasicAuth (_username self) (_password self) = Ok auth ->
  let rq := request_of self "POST" (key_uri table record_id)
              (Some (json_dumps float_repr false data)) PNone auth in
  create self thing data w =
    (match response_to self rq w with
     | Ok response =>
         if negb (truthy response) && is_not_None record_id
         then Raise (SurrealException (not_found_message table record_id))
         else first_result response
     | Raise e => Raise e
     end, after_request self rq w).
Proof.
  intros Hsplit Hauth rq. subst rq. run_method Hsplit Hauth.
  unfold raise. now destruct (negb (truthy response) && is_not_None record_id).
Qed.

Lemma update_runs (self : SurrealHTTP) (thing table : string)
    (record_id : option string) (data : PyVal) (auth : BasicAuth.t) (w : World) :
  split_thing thing = Ok (table, record_id) ->
  aiohttp_BasicAuth (_username self) (_password self) = Ok auth ->
  let rq := request_of self "PUT" (key_uri table record_id)
              (Some (json_dumps float_repr false data)) PNone auth in
  update self thing data w = (unwrapped (response_to self rq w), after_request self rq w).
Proof. intros Hsplit Hauth rq. subst rq. unfold unwrapped. run_method Hsplit Hauth. Qed.

Lemma patch_runs (self : SurrealHTTP) (thing table : string)
    (record_id : option string) (data : PyVal) (auth : BasicAuth.t) (w : World) :
  split_thing thing = Ok (table, record_id) ->
  aiohttp_BasicAuth (_username self) (_password self) = Ok auth ->
  let rq := request_of self "PATCH" (key_uri table record_id)
              (Some (json_dumps float_repr false data)) PNone auth in
  patch self thing data w = (unwrapped (response_to self rq w), after_request self rq w).
Proof. intros Hsplit Hauth rq. subst rq. unfold unwrapped. run_method Hsplit Hauth. Qed.

Lemma delete_runs (self : SurrealHTTP) (thing table : string)
    (record_id : option string) (auth : BasicAuth.t) (w : World) :
  split_thing thing = Ok (table, record_id) ->
  aiohttp_BasicAuth (_username self) (_password self) = Ok auth ->
  let rq := request_of self "DELETE" (key_uri table record_id) None PNone auth in
  delete self thing w = (response_to self rq w, after_request self rq w).
Proof. intros Hsplit Hauth rq. subst rq. run_method Hsplit Hauth. Qed.

(** A thing that does not unpack stops every method before any request. *)
Lemma key_methods_stop (self : SurrealHTTP) (thing : string) (data : PyVal)
    (e : PyExc) (w : World) :
  split_thing thing = Raise e ->
  select self thing w = (Raise e, w)
  /\ create self thing data w = (Raise e, w)
  /\ update self thing data w = (Raise e, w)
  /\ patch self thing data w = (Raise e, w)
  /\ delete self thing w = (Raise e, w).
Proof.
  intros H. unfold select, create, update, patch, delete, bind, lift.
  rewrite H. repeat split; reflexivity.
Qed.


Lemma unwrapped_not_SurrealException (r : Result PyVal) :
  is_SurrealException r = false -> is_SurrealException (unwrapped r) = false.
Proof.
  destruct r as [response|e]; simpl; [|trivial].
  intros _. apply first_result_not_SurrealException.
Qed.



Lemma trailing_colon (table : string) :
  count colon table = 0 -> split_thing (table +:+ ":") = Ok (table, Some EmptyString).
Proof.
  intros H.
  assert (count colon (table +:+ ":") = 1 /\
          partition_first colon (table +:+ ":") = (table, Some EmptyString)) as [Hc Hp].
  { induction table as [|a rest IH]; simpl in *; [now split|].
    destruct (Ascii.eqb a colon); [discriminate|].
    destruct (IH H) as [Hc Hp]. now rewrite Hc, Hp. }
  rewrite split_thing_cases, Hc, Hp. reflexivity.
Qed.

(** [response[0]["result"]] has a value exactly on a list whose first
    element is a dict with the key ["result"]. *)
Lemma first_result_defined (response v : PyVal) :
  first_result response = Ok v
  <-> exists entries rest,
        response = PList (PDict entries :: rest) /\ dict_get entries "result" = Some v.
Proof.
  split.
  - unfold first_result.
    destruct response as [| | | |s|items|entries]; simpl; try discriminate.
    + destruct s; discriminate.
    + destruct items as [|x rest]; simpl; [discriminate|].
      destruct x as [| | | | | |entries]; simpl; try discriminate.
      destruct (dict_get entries "result") as [x|] eqn:Hget; [|discriminate].
      intros [= <-]. now exists entries, rest.
  - intros (entries & rest & -> & Hget). unfold first_result. simpl. now rewrite Hget.
Qed.

Lemma response_to_not_SurrealException (self : SurrealHTTP) (rq : Request.t) (w : World) :
  is_SurrealException (response_to self rq w) = false.
Proof.
  unfold response_to, decoded, loads.
  destruct (snd _) as [text|what]; [|reflexivity].
  destruct (json_loads text); reflexivity.
Qed.


(** ** The claims about requests and their post-processing *)

(** C1 (the code departs from the claim at a thing with a second colon).
    The claim: every thing with a colon is split at its first colon, so
    ["person:a:b"] is the table ["person"] and the record id ["a:b"].  The
    code splits at every colon and unpacks the fields into two targets:
    at ["person:a:b"] the unpacking raises ValueError, in each of select,
    create, update, patch and delete, before any request is made. *)
Theorem second_colon_raises_ValueError (self : SurrealHTTP) (data : PyVal) (w : World) :
  partition_first colon "person:a:b" = ("person", Some "a:b")
  /\ split colon "person:a:b" = ["person"; "a"; "b"]
  /\ split_thing "person:a:b" = Raise ValueError
  /\ select self "person:a:b" w = (Raise ValueError, w)
  /\ create self "person:a:b" data w = (Raise ValueError, w)
  /\ update self "person:a:b" data w = (Raise ValueError, w)
  /\ patch self "person:a:b" data w = (Raise ValueError, w)
  /\ delete self "person:a:b" w = (Raise ValueError, w).
Proof.
  split; [reflexivity|]. split; [reflexivity|]. split; [reflexivity|].
  apply key_methods_stop. reflexivity.
Qed.

(** C2.  select and create, on a thing that splits into a table and a
    record id (or none), with a login aiohttp accepts.  Each on its own
    response: when the decoded response to its request is empty (falsy), the
    method raises SurrealException with the not-found message if a record id
    was parsed, and does not raise SurrealException if the thing is a table
    only.  A table-only select or create raises SurrealException in no
    world at all. *)
Theorem not_found_only_when_record_scoped (self : SurrealHTTP) (thing table : string)
    (record_id : option string) (data : PyVal) (auth : BasicAuth.t) (w : World) :
  split_thing thing = Ok (table, record_id) ->
  aiohttp_BasicAuth (_username self) (_password self) = Ok auth ->
  let get := request_of self "GET" (key_uri table record_id) None PNone auth in
  let post := request_of self "POST" (key_uri table record_id)
                (Some (json_dumps float_repr false data)) PNone auth in
  (forall selected,
      response_to self get w = Ok selected ->
      truthy selected = false ->
      match record_id with
      | Some id =>
          fst (select self thing w)
          = Raise (SurrealException ("Key " +:+ id +:+ " not found in table " +:+ table))
      | None => is_SurrealException (fst (select self thing w)) = false
      end)
  /\ (forall created,
        response_to self post w = Ok created ->
        truthy created = false ->
        match record_id with
        | Some id =>
            fst (create self thing data w)
            = Raise (SurrealException ("Key " +:+ id +:+ " not found in table " +:+ table))
        | None => is_SurrealException (fst (create self thing data w)) = false
        end)
  /\ (record_id = None ->
      forall (data' : PyVal) (w' : World),
        is_SurrealException (fst (select self thing w')) = false
        /\ is_SurrealException (fst (create self thing data' w')) = false).
Proof.
  intros Hsplit Hauth get post. subst get post.
  split; [|split].
  - intros selected Hsel Hs. rewrite (select_runs _ _ _ _ _ _ Hsplit Hauth).
    cbn zeta. rewrite Hsel, Hs. simpl.
    destruct record_id as [id|]; simpl; [reflexivity|apply first_result_not_SurrealException].
  - intros created Hcre Hc. rewrite (create_runs _ _ _ _ _ _ _ Hsplit Hauth).
    cbn zeta. rewrite Hcre, Hc. simpl.
    destruct record_id as [id|]; simpl; [reflexivity|apply first_result_not_SurrealException].
  - intros -> data' w'.
    rewrite (select_runs _ _ _ _ _ w' Hsplit Hauth),
      (create_runs _ _ _ _ data' _ w' Hsplit Hauth). cbn zeta. simpl.
    split.
    + pose proof (response_to_not_SurrealException self
                    (request_of self "GET" (key_uri table None) None PNone auth) w') as Hr.
      destruct (response_to _ _ _) as [response|e]; [|exact Hr].
      rewrite andb_false_r. apply first_result_not_SurrealException.
    + pose proof (response_to_not_SurrealException self
                    (request_of self "POST" (key_uri table None)
                       (Some (json_dumps float_repr false data')) PNone auth) w') as Hr.
      destruct (response_to _ _ _) as [response|e]; [|exact Hr].
      rewrite andb_false_r. apply first_result_not_SurrealException.
Qed.





(** C9.  The unwrap [response[0]["result"]] of select, create, update and
    patch has a value only on a non-empty list whose first element is an
    object with a ["result"] key.  On an empty list it raises IndexError:
    so do a table-only select and create and every update and patch whose
    decoded response is the empty list, and none of them raises
    SurrealException there. *)
Theorem unwrap_needs_first_envelope (self : SurrealHTTP) (thing table : string)
    (record_id : option string) (data : PyVal) (auth : BasicAuth.t) (w : World) :
  split_thing thing = Ok (table, record_id) ->
  aiohttp_BasicAuth (_username self) (_password self) = Ok auth ->
  let body := Some (json_dumps float_repr false data) in
  let request method data := request_of self method (key_uri table record_id) data PNone auth in
  (forall response v,
      first_result response = Ok v
      <-> exists entries rest,
            response = PList (PDict entries :: rest) /\ dict_get entries "result" = Some v)
  /\ first_result (PList []) = Raise IndexError
  /\ (record_id = None -> response_to self (request "GET" None) w = Ok (PList []) ->
      fst (select self thing w) = Raise IndexError)
  /\ (record_id = None -> response_to self (request "POST" body) w = Ok (PList []) ->
      fst (create self thing data w) = Raise IndexError)
  /\ (response_to self (request "PUT" body) w = Ok (PList []) ->
      fst (update self thing data w) = Raise IndexError)
  /\ (response_to self (request "PATCH" body) w = Ok (PList []) ->
      fst (patch self thing data w) = Raise IndexError).
Proof.
  intros Hsplit Hauth body request.
  split; [apply first_result_defined|]. split; [reflexivity|].
  rewrite (select_runs _ _ _ _ _ w Hsplit Hauth), (create_runs _ _ _ _ data _ w Hsplit Hauth),
    (update_runs _ _ _ _ data _ w Hsplit Hauth), (patch_runs _ _ _ _ data _ w Hsplit Hauth).
  cbn zeta. subst request body. cbn beta.
  repeat split.
  - intros -> H. now rewrite H.
  - intros -> H. now rewrite H.
  - intros H. now rewrite H.
  - intros H. now rewrite H.
Qed.

(** C10.  A thing that ends in a colon and from which the module parses a
    table and a record id has the empty string as record id (and nothing
    but that last colon after the table), and its path is [/key/{table}],
    the table-level path.  With a login aiohttp accepts, select and create
    send their request there, and each, when the decoded response to its
    own request is empty (falsy), raises SurrealException all the same, with
    an empty key in the message. *)
Theorem trailing_colon_is_checked_as_record (self : SurrealHTTP) (prefix table : string)
    (record_id : option string) (data : PyVal) (w : World) :
  let thing := prefix +:+ ":" in
  split_thing thing = Ok (table, record_id) ->
  table = prefix
  /\ record_id = Some EmptyString
  /\ key_uri table record_id = "/key/" +:+ table
  /\ forall auth : BasicAuth.t,
       aiohttp_BasicAuth (_username self) (_password self) = Ok auth ->
       let get := Request.Build "GET" (_url self +:+ "/key/" +:+ table) None PNone
                    (make_headers self) auth in
       let post := Request.Build "POST" (_url self +:+ "/key/" +:+ table)
                     (Some (json_dumps float_repr false data)) PNone (make_headers self) auth in
       snd (select self thing w) = after_request self get w
       /\ snd (create self thing data w) = after_request self post w
       /\ (forall selected,
             response_to self get w = Ok selected ->
             truthy selected = false ->
             fst (select self thing w)
             = Raise (SurrealException ("Key  not found in table " +:+ table)))
       /\ (forall created,
             response_to self post w = Ok created ->
             truthy created = false ->
             fst (create self thing data w)
             = Raise (SurrealException ("Key  not found in table " +:+ table))).
Proof.
  intros thing Hsplit.
  assert (count colon prefix = 0) as Hprefix.
  { pose proof (split_thing_cases thing) as Hcases. rewrite Hsplit in Hcases.
    unfold thing in Hcases. rewrite count_app in Hcases. simpl in Hcases.
    destruct (count colon prefix) as [|n]; [reflexivity|].
    replace (S n + 1) with (S (S n)) in Hcases by lia. discriminate. }
  pose proof (trailing_colon prefix Hprefix) as Hparsed. fold thing in Hparsed.
  rewrite Hsplit in Hparsed. injection Hparsed as -> ->.
  split; [reflexivity|]. split; [reflexivity|]. split; [reflexivity|].
  intros auth Hauth get post.
  rewrite (select_runs _ _ _ _ _ w Hsplit Hauth), (create_runs _ _ _ _ data _ w Hsplit Hauth).
  cbn zeta. rewrite key_uri_empty_id.
  change (request_of self "GET" ("/key/" +:+ prefix) None PNone auth) with get.
  change (request_of self "POST" ("/key/" +:+ prefix)
            (Some (json_dumps float_repr false data)) PNone auth) with post.
  split; [reflexivity|]. split; [reflexivity|]. split.
  - intros selected Hsel Hs. now rewrite Hsel, Hs.
  - intros created Hcre Hc. now rewrite Hcre, Hc.
Qed.

(** ** The world after a call *)

Lemma signup_runs (self : SurrealHTTP) (vars : PyVal) (auth : BasicAuth.t) (w : World) :
  aiohttp_BasicAuth (_username self) (_password self) = Ok auth ->
  let rq := request_of self "POST" "/signup" (Some (json_dumps float_repr true vars)) PNone auth in
  signup self vars w = (response_to self rq w, after_request self rq w).
Proof. intros Hauth rq. subst rq. run_method Hauth Hauth. Qed.

Lemma signin_runs (self : SurrealHTTP) (vars : PyVal) (auth : BasicAuth.t) (w : World) :
  aiohttp_BasicAuth (_username self) (_password self) = Ok auth ->
  let rq := request_of self "POST" "/signin" (Some (json_dumps float_repr true vars)) PNone auth in
  signin self vars w = (response_to self rq w, after_request self rq w).
Proof. intros Hauth rq. subst rq. run_method Hauth Hauth. Qed.

(** A call either reaches the session, and then the world has one more
    recorded request, built from [self], or it leaves the world as it is. *)
Lemma run_world (self : SurrealHTTP) (op : Operation) (w : World) :
  if reaches_session self op
  then exists method uri data params,
         snd (run self op w)
         = after_request self (request_of self method uri data params (auth_of self)) w
  else snd (run self op w) = w.
Proof.
  unfold reaches_session.
  destruct (contains colon (_username self)) eqn:Hlogin.
  - rewrite andb_false_r.
    destruct op; simpl;
      try (unfold signup, signin, query; now rewrite _request_refused);
      unfold select, create, update, patch, delete, bind, lift;
      (destruct (split_thing thing) as [[table record_id]|e]; [|reflexivity]);
      cbn beta iota; now rewrite _request_refused.
  - rewrite andb_true_r.
    pose proof (aiohttp_BasicAuth_accepts _ (_password self) Hlogin) as Hauth.
    fold (auth_of self) in Hauth.
    destruct op; simpl.
    + rewrite (signup_runs _ _ _ _ Hauth). simpl. eauto.
    + rewrite (signin_runs _ _ _ _ Hauth). simpl. eauto.
    + rewrite (query_runs _ _ _ _ _ Hauth). simpl. eauto.
    + destruct (split_thing thing) as [[table record_id]|e] eqn:Hsplit.
      * rewrite (select_runs _ _ _ _ _ _ Hsplit Hauth). simpl. eauto.
      * now destruct (key_methods_stop self thing PNone e w Hsplit) as (-> & _).
    + destruct (split_thing thing) as [[table record_id]|e] eqn:Hsplit.
      * rewrite (create_runs _ _ _ _ _ _ _ Hsplit Hauth). simpl. eauto.
      * now destruct (key_methods_stop self thing data e w Hsplit) as (_ & -> & _).
    + destruct (split_thing thing) as [[table record_id]|e] eqn:Hsplit.
      * rewrite (update_runs _ _ _ _ _ _ _ Hsplit Hauth). simpl. eauto.
      * now destruct (key_methods_stop self thing data e w Hsplit) as (_ & _ & -> & _).
    + destruct (split_thing thing) as [[table record_id]|e] eqn:Hsplit.
      * rewrite (patch_runs _ _ _ _ _ _ _ Hsplit Hauth). simpl. eauto.
      * now destruct (key_methods_stop self thing data e w Hsplit) as (_ & _ & _ & -> & _).
    + destruct (split_thing thing) as [[table record_id]|e] eqn:Hsplit.
      * rewrite (delete_runs _ _ _ _ _ _ Hsplit Hauth). simpl. eauto.
      * now destruct (key_methods_stop self thing PNone e w Hsplit) as (_ & _ & _ & _ & ->).
Qed.

(** No method opens or closes a session. *)
Lemma run_sessions (self : SurrealHTTP) (op : Operation) (w : World) :
  sessions (snd (run self op w)) = sessions w.
Proof.
  pose proof (run_world self op w) as H.
  destruct (reaches_session self op).
  - destruct H as (method & uri & data & params & ->). reflexivity.
  - now rewrite H.
Qed.

(** ** The session of a client *)

(** A statement leaves the sessions alone, or closes the session of a
    client that owns it. *)
Lemma exec_sessions (self : SurrealHTTP) (st : Statement) (w : World) :
  sessions (snd (exec self st w)) = sessions w
  \/ (_should_close_session self = true
      /\ sessions (snd (exec self st w)) = <[_session self := Closed]> (sessions w)).
Proof.
  destruct st as [op|]; simpl.
  - left. unfold bind. pose proof (run_sessions self op w) as H.
    destruct (run self op w) as [[v|e] w']; exact H.
  - unfold close. destruct (_should_close_session self); [right|left]; auto.
Qed.

Lemma block_sessions (self : SurrealHTTP) (body : list Statement) (w : World) :
  sessions (snd (block self body w)) = sessions w
  \/ (_should_close_session self = true
      /\ sessions (snd (block self body w)) = <[_session self := Closed]> (sessions w)).
Proof.
  revert w. induction body as [|st rest IH]; intros w; simpl; [now left|].
  unfold bind. pose proof (exec_sessions self st w) as Hst.
  destruct (exec self st w) as [[u|e] w1]; simpl in Hst; [|exact Hst].
  destruct (IH w1) as [Hrest|[Hown Hrest]]; rewrite Hrest.
  - exact Hst.
  - right. split; [exact Hown|].
    destruct Hst as [->|[_ ->]]; [reflexivity|apply insert_insert_eq].
Qed.

(** C3.  Used as a scoped resource around any block of calls (failing or
    not, closing early or not): a client constructed without a session
    owns a fresh one, and on exit that session is closed and no other is
    touched; a client constructed with a session leaves every session, its
    own included, as it was; and [close] never raises and calling it again
    changes nothing more. *)
Theorem scoped_use_closes_owned_session_only
    (url namespace database username password : string)
    (body : list Statement) (w : World) :
  (let h := fresh (dom (sessions w)) in
   let w' := snd (async_with (__init__ url namespace database username password None)
                             (fun db => block db body) w) in
   sessions w !! h = None
   /\ _session (fst (__init__ url namespace database username password None w)) = h
   /\ sessions w' = <[h := Closed]> (sessions w))
  /\ (forall h : nat,
        let w' := snd (async_with (__init__ url namespace database username password (Some h))
                                  (fun db => block db body) w) in
        sessions w' = sessions w)
  /\ (forall self : SurrealHTTP,
        fst (close self w) = Ok tt
        /\ close self (snd (close self w)) = close self w
        /\ __aexit__ self (snd (close self w)) = close self w).
Proof.
  split; [|split].
  - cbn zeta. split; [apply not_elem_of_dom, is_fresh|]. split; [reflexivity|].
    unfold async_with, __init__, ClientSession, __aenter__, ret, __aexit__, close.
    cbn beta iota zeta.
    set (self := mkSurrealHTTP url namespace database username password _ true).
    set (w1 := mkWorld _ _ _).
    pose proof (block_sessions self body w1) as H.
    destruct (block self body w1) as [r w3]. simpl in *.
    destruct H as [->|[_ ->]]; now rewrite !insert_insert_eq.
  - intros h. cbn zeta.
    unfold async_with, __init__, __aenter__, ret, __aexit__, close.
    cbn beta iota zeta.
    set (self := mkSurrealHTTP url namespace database username password h false).
    pose proof (block_sessions self body w) as H.
    destruct (block self body w) as [r w3]. simpl in *.
    destruct H as [H|[H _]]; [exact H|discriminate].
  - intros self. unfold __aexit__, close, session_close, ret.
    destruct (_should_close_session self); simpl; [|auto].
    rewrite insert_insert_eq. auto.
Qed.

(** C4.  Construction stores the namespace, database, username and
    password it is given.  Every call, of any of the eight methods, records
    at most one request (exactly one when it reaches the session), on the
    client's session, whose headers are NS, DB, Accept and Content-Type
    with the client's namespace and database and [application/json], and
    whose auth is the Basic Auth of the client's username and password:
    they are built from the client's fields at the call.  The same holds
    for every request of a block of calls. *)
Theorem every_request_carries_identity :
  (forall (url namespace database username password : string) (session : option nat)
          (w0 : World),
      let self := fst (__init__ url namespace database username password session w0) in
      _url self = url /\ _namespace self = namespace /\ _database self = database
      /\ _username self = username /\ _password self = password)
  /\ (forall (self : SurrealHTTP) (op : Operation) (w : World),
        exists new,
          calls (snd (run self op w)) = (new ++ calls w)%list
          /\ length new = (if reaches_session self op then 1 else 0)
          /\ Forall (fun call =>
                       fst call = _session self
                       /\ carries_identity (_namespace self) (_database self)
                            (_username self) (_password self) (snd call)) new)
  /\ (forall (self : SurrealHTTP) (body : list Statement) (w : World),
        exists new,
          calls (snd (block self body w)) = (new ++ calls w)%list
          /\ Forall (fun call =>
                       fst call = _session self
                       /\ carries_identity (_namespace self) (_database self)
                            (_username self) (_password self) (snd call)) new).
Proof.
  assert (forall (self : SurrealHTTP) (op : Operation) (w : World),
        exists new,
          calls (snd (run self op w)) = (new ++ calls w)%list
          /\ length new = (if reaches_session self op then 1 else 0)
          /\ Forall (fun call =>
                       fst call = _session self
                       /\ carries_identity (_namespace self) (_database self)
                            (_username self) (_password self) (snd call)) new) as Hrun.
  { intros self op w. pose proof (run_world self op w) as H.
    destruct (reaches_session self op).
    - destruct H as (method & uri & data & params & ->).
      eexists [_]. split; [reflexivity|]. split; [reflexivity|].
      constructor; [|constructor]. repeat split.
    - rewrite H. exists []. repeat split. constructor. }
  split; [|split; [exact Hrun|]].
  - intros url namespace database username password [h|] w0; simpl; repeat split.
  - intros self body. induction body as [|st rest IH]; intros w; simpl.
    + exists []. split; [reflexivity|constructor].
    + assert (exists new1,
                 calls (snd (exec self st w)) = (new1 ++ calls w)%list
                 /\ Forall (fun call =>
                              fst call = _session self
                              /\ carries_identity (_namespace self) (_database self)
                                   (_username self) (_password self) (snd call)) new1)
        as (new1 & Hc1 & Hf1).
      { destruct st as [op|]; simpl.
        - destruct (Hrun self op w) as (new & Hc & _ & Hf).
          exists new. split; [|exact Hf].
          unfold bind. destruct (run self op w) as [[v|e] w']; exact Hc.
        - exists []. split; [|constructor].
          unfold close. now destruct (_should_close_session self). }
      unfold bind. destruct (exec self st w) as [[u|e] w1]; simpl in Hc1.
      * destruct (IH w1) as (new2 & Hc2 & Hf2).
        exists (new2 ++ new1)%list. split.
        -- rewrite Hc2, Hc1. now rewrite app_assoc.
        -- apply Forall_app. split; assumption.
      * exists new1. split; assumption.
Qed.

End Properties.

(** * The claims on the example platforms *)

(** A missing record and a whole table: select where only GET is answered
    with an empty list, create where only POST is. *)
Lemma not_found_only_when_record_scoped_witness :
  (split_thing "person:missing" = Ok ("person", Some "missing")
   /\ fst (select db_get "person:missing" w_get)
      = Raise (SurrealException "Key missing not found in table person")
   /\ fst (create db_get "person:missing" tobie w_get) = Ok (PList [])
   /\ fst (create db_post "person:missing" tobie w_post)
      = Raise (SurrealException "Key missing not found in table person")
   /\ fst (select db_post "person:missing" w_post) = Ok (PList []))
  /\ (split_thing "person" = Ok ("person", None)
      /\ fst (select db_get "person" w_get) = Raise IndexError
      /\ is_SurrealException (fst (select db_get "person" w_get)) = false
      /\ is_SurrealException (fst (create db_post "person" tobie w_post)) = false).
Proof.
  split.
  - split; [reflexivity|].
    destruct (not_found_only_when_record_scoped (platform := one_method_empty "GET")
                db_get "person:missing" "person" (Some "missing") tobie root_auth w_get
                eq_refl eq_refl) as (Hselect & _ & _).
    destruct (not_found_only_when_record_scoped (platform := one_method_empty "POST")
                db_post "person:missing" "person" (Some "missing") tobie root_auth w_post
                eq_refl eq_refl) as (_ & Hcreate & _).
    split; [exact (Hselect (PList []) eq_refl eq_refl)|]. split; [reflexivity|].
    split; [exact (Hcreate (PList []) eq_refl eq_refl)|reflexivity].
  - split; [reflexivity|]. split; [reflexivity|].
    destruct (not_found_only_when_record_scoped (platform := one_method_empty "GET")
                db_get "person" "person" None tobie root_auth w_get
                eq_refl eq_refl) as (Hselect & _ & _).
    destruct (not_found_only_when_record_scoped (platform := one_method_empty "POST")
                db_post "person" "person" None tobie root_auth w_post
                eq_refl eq_refl) as (_ & Hcreate & _).
    split; [exact (Hselect (PList []) eq_refl eq_refl)|exact (Hcreate (PList []) eq_refl eq_refl)].
Defined.





(** The four unwrapping methods on a table, answered with an empty list. *)
Lemma unwrap_needs_first_envelope_witness :
  fst (select db0 "person" w0) = Raise IndexError
  /\ fst (create db0 "person" tobie w0) = Raise IndexError
  /\ fst (update db0 "person" tobie w0) = Raise IndexError
  /\ fst (patch db0 "person" tobie w0) = Raise IndexError.
Proof.
  destruct (unwrap_needs_first_envelope (platform := empty_list_platform)
              db0 "person" "person" None tobie root_auth w0 eq_refl eq_refl)
    as (_ & _ & Hs & Hc & Hu & Hp).
  split; [exact (Hs eq_refl eq_refl)|].
  split; [exact (Hc eq_refl eq_refl)|].
  split; [exact (Hu eq_refl)|exact (Hp eq_refl)].
Defined.

(** select and create of the thing [person:]: select where only GET is
    answered with an empty list, create where only POST is. *)
Lemma trailing_colon_is_checked_as_record_witness :
  split_thing "person:" = Ok ("person", Some EmptyString)
  /\ select db_get "person:" w_get
     = (Raise (SurrealException "Key  not found in table person"),
        @mkWorld (one_method_empty "GET") (sessions w_get)
          [(_session db_get,
            Request.Build "GET" "http://localhost:8000/key/person" None PNone
              identity_headers root_auth)]
          1)
  /\ create db_post "person:" tobie w_post
     = (Raise (SurrealException "Key  not found in table person"),
        @mkWorld (one_method_empty "POST") (sessions w_post)
          [(_session db_post,
            Request.Build "POST" "http://localhost:8000/key/person" (Some tobie_text) PNone
              identity_headers root_auth)]
          1).
Proof.
  split; [reflexivity|].
  destruct (trailing_colon_is_checked_as_record (platform := one_method_empty "GET")
              db_get "person" "person" (Some EmptyString) tobie w_get eq_refl)
    as (_ & _ & _ & Hget).
  destruct (Hget root_auth eq_refl) as (Hworld & _ & Hselect & _).
  destruct (trailing_colon_is_checked_as_record (platform := one_method_empty "POST")
              db_post "person" "person" (Some EmptyString) tobie w_post eq_refl)
    as (_ & _ & _ & Hpost).
  destruct (Hpost root_auth eq_refl) as (_ & Hworld' & _ & Hcreate).
  split.
  - rewrite (surjective_pairing (select db_get "person:" w_get)).
    apply f_equal2; [exact (Hselect (PList []) eq_refl eq_refl)|exact Hworld].
  - rewrite (surjective_pairing (create db_post "person:" tobie w_post)).
    apply f_equal2; [exact (Hcreate (PList []) eq_refl eq_refl)|exact Hworld'].
Defined.

(** ** Further evaluations *)

(** A select that finds its envelope returns the envelope's result. *)
Example select_unwraps_first_envelope :
  fst (select db1 "person:tobie" w1) = Ok (PList [])
  /\ fst (delete db1 "person:tobie" w1) = Ok one_envelope.
Proof. split; reflexivity. Qed.

(** A login with a colon stops a call before the session is reached. *)
Example colon_in_login_stops_the_call :
  let db := mkSurrealHTTP "http://localhost:8000" "test" "test" "ro:ot" "root" 0 false in
  select db "person" w0 = (Raise ValueError, w0).
Proof. reflexivity. Qed.

(** The scoped use of an owning client, with a failing call in the block. *)
Example scoped_use_of_the_example_client :
  let w := snd (async_with (__init__ "http://localhost:8000" "test" "test" "root" "root" None)
                  (fun db => block db [Call (Select "person"); Call (Delete "person")])
                  (fresh_world (platform := empty_list_platform) 0)) in
  sessions w !! 0 = Some Closed /\ length (calls w) = 1.
Proof. split; reflexivity. Qed.

(** The four unwrapping methods return the record list of the envelope. *)
Example unwrapping_methods_return_the_records :
  fst (select db6 "person:tobie" w6) = Ok (PList [tobie_record])
  /\ fst (create db6 "person" tobie w6) = Ok (PList [tobie_record])
  /\ fst (update db6 "person:tobie" tobie w6) = Ok (PList [tobie_record])
  /\ fst (patch db6 "person:tobie" tobie w6) = Ok (PList [tobie_record])
  /\ fst (delete db6 "person:tobie" w6) = Ok record_envelope.
Proof. repeat split. Qed.

(** The not-found test of select and create looks at their own response. *)
Example not_found_per_method :
  fst (select db_get "person:missing" w_get)
    = Raise (SurrealException "Key missing not found in table person")
  /\ fst (create db_get "person:missing" tobie w_get) = Ok (PList [])
  /\ fst (create db_post "person:missing" tobie w_post)
    = Raise (SurrealException "Key missing not found in table person")
  /\ fst (update db0 "person:missing" tobie w0) = Raise IndexError.
Proof. repeat split. Qed.

(** [json.dumps] on nested data, and its two ways of escaping. *)
Example json_dumps_nested :
  json_dumps (@float_repr empty_list_platform) false
    (PDict [("name", PStr "Tobie");
            ("settings", PDict [("active", PBool true); ("tags", PList [PInt 1; PInt (-2); PNone])])])
  = "{" +:+ quoted "name" +:+ ": " +:+ quoted "Tobie" +:+ ", " +:+ quoted "settings" +:+ ": {"
    +:+ quoted "active" +:+ ": true, " +:+ quoted "tags" +:+ ": [1, -2, null]}}".
Proof. reflexivity. Qed.

Example json_dumps_escapes :
  json_dumps (@float_repr empty_list_platform) true (PStr (String "010" (String "233" "a")))
  = quoted (char backslash +:+ "n" +:+ char backslash +:+ "u00e9a")
  /\ json_dumps (@float_repr empty_list_platform) false (PStr (String "010" (String "233" "a")))
  = quoted (char backslash +:+ "n" +:+ String "233" "a").
Proof. split; reflexivity. Qed.

(** * Further properties of the methods *)

Section Coverage.
Context {platform : Platform}.

(** ** Every call, by cases *)

Lemma split_thing_raises_ValueError (thing : string) (e : PyExc) :
  split_thing thing = Raise e -> e = ValueError.
Proof.
  rewrite split_thing_cases. destruct (Nat.leb _ _); [discriminate|]. now intros [= <-].
Qed.

(** A call that does not reach the session raises ValueError and leaves
    the world as it is. *)
Lemma run_stopped (self : SurrealHTTP) (op : Operation) (w : World) :
  reaches_session self op = false -> run self op w = (Raise ValueError, w).
Proof.
  unfold reaches_session.
  destruct op; simpl;
    try (destruct (contains colon (_username self)) eqn:Hlogin; [|discriminate];
         intros _; unfold signup, signin, query; now rewrite _request_refused);
    (destruct (split_thing thing) as [[table record_id]|e] eqn:Hsplit;
     [ simpl; destruct (contains colon (_username self)) eqn:Hlogin; [|discriminate];
       intros _; unfold select, create, update, patch, delete, bind, lift;
       rewrite Hsplit; cbn beta iota; now rewrite _request_refused
     | intros _; rewrite (split_thing_raises_ValueError _ _ Hsplit) in Hsplit ]).
  - now destruct (key_methods_stop self thing PNone _ w Hsplit) as (-> & _).
  - now destruct (key_methods_stop self thing data _ w Hsplit) as (_ & -> & _).
  - now destruct (key_methods_stop self thing data _ w Hsplit) as (_ & _ & -> & _).
  - now destruct (key_methods_stop self thing data _ w Hsplit) as (_ & _ & _ & -> & _).
  - now destruct (key_methods_stop self thing PNone _ w Hsplit) as (_ & _ & _ & _ & ->).
Qed.

(** A call that reaches the session hands it one request; an exception of
    the session or of the decoder is the call's exception; a decoded
    response goes through the not-found test and the unwrap of its method. *)
Lemma run_reaching (self : SurrealHTTP) (op : Operation) (w : World) :
  reaches_session self op = true ->
  exists rq,
    snd (run self op w) = after_request self rq w
    /\ match response_to self rq w with
       | Raise e => fst (run self op w) = Raise e
       | Ok response =>
           fst (run self op w) =
             match parsed op with
             | Some (table, record_id) =>
                 if checks_not_found op && (negb (truthy response) && is_not_None record_id)
                 then Raise (SurrealException (not_found_message table record_id))
                 else if returns_unwrapped op then first_result response else Ok response
             | None => Ok response
             end
       end.
Proof.
  unfold reaches_session, parsed. intros H. apply andb_true_iff in H as [Hthing Hlogin].
  apply negb_true_iff in Hlogin.
  pose proof (aiohttp_BasicAuth_accepts _ (_password self) Hlogin) as Hauth.
  destruct op; simpl in *.
  - rewrite (signup_runs _ _ _ _ Hauth). eexists. split; [reflexivity|].
    simpl. now destruct (response_to _ _ _).
  - rewrite (signin_runs _ _ _ _ Hauth). eexists. split; [reflexivity|].
    simpl. now destruct (response_to _ _ _).
  - rewrite (query_runs _ _ _ _ _ Hauth). eexists. split; [reflexivity|].
    simpl. now destruct (response_to _ _ _).
  - destruct (split_thing thing) as [[table record_id]|e] eqn:Hsplit; [|discriminate].
    rewrite (select_runs _ _ _ _ _ _ Hsplit Hauth). eexists. split; [reflexivity|].
    simpl. now destruct (response_to _ _ _).
  - destruct (split_thing thing) as [[table record_id]|e] eqn:Hsplit; [|discriminate].
    rewrite (create_runs _ _ _ _ _ _ _ Hsplit Hauth). eexists. split; [reflexivity|].
    simpl. now destruct (response_to _ _ _).
  - destruct (split_thing thing) as [[table record_id]|e] eqn:Hsplit; [|discriminate].
    rewrite (update_runs _ _ _ _ _ _ _ Hsplit Hauth). eexists. split; [reflexivity|].
    simpl. now destruct (response_to _ _ _).
  - destruct (split_thing thing) as [[table record_id]|e] eqn:Hsplit; [|discriminate].
    rewrite (patch_runs _ _ _ _ _ _ _ Hsplit Hauth). eexists. split; [reflexivity|].
    simpl. now destruct (response_to _ _ _).
  - destruct (split_thing thing) as [[table record_id]|e] eqn:Hsplit; [|discriminate].
    rewrite (delete_runs _ _ _ _ _ _ Hsplit Hauth). eexists. split; [reflexivity|].
    simpl. now destruct (response_to _ _ _).
Qed.

(** ** Errors *)

(** X1.  A call that reaches the session records exactly one request.  When
    the session fails, the call raises that failure; when the answer is not
    JSON, the call raises the decoder's error.  This holds for each of the
    eight methods: nothing is caught, retried or replaced. *)
Theorem transport_and_decode_errors_propagate (self : SurrealHTTP) (op : Operation)
    (w : World) :
  reaches_session self op = true ->
  exists rq,
    calls (snd (run self op w)) = (_session self, rq) :: calls w
    /\ (forall what,
          snd (transport (net w) (sessions w !! _session self) rq) = Failure what ->
          fst (run self op w) = Raise (TransportError what))
    /\ (forall text,
          snd (transport (net w) (sessions w !! _session self) rq) = Body text ->
          json_loads text = None ->
          fst (run self op w) = Raise JSONDecodeError).
Proof.
  intros Hreach. destruct (run_reaching self op w Hreach) as (rq & Hw & Hr).
  exists rq. split; [now rewrite Hw|].
  unfold response_to, decoded, loads in Hr. split.
  - intros what Hf. now rewrite Hf in Hr.
  - intros text Hb Hj. now rewrite Hb, Hj in Hr.
Qed.


(** X3.  When a call raises SurrealException, the call is a select or a
    create, its thing parsed into a table and a record id, the request was
    made and its decoded response was empty (falsy), and the message is
    [Key {id} not found in table {table}]. *)
Theorem not_found_only_from_select_and_create (self : SurrealHTTP) (op : Operation)
    (w : World) (msg : string) :
  fst (run self op w) = Raise (SurrealException msg) ->
  exists thing table id rq response,
    thing_of op = Some thing
    /\ checks_not_found op = true
    /\ split_thing thing = Ok (table, Some id)
    /\ msg = "Key " +:+ id +:+ " not found in table " +:+ table
    /\ snd (run self op w) = after_request self rq w
    /\ response_to self rq w = Ok response
    /\ truthy response = false.
Proof.
  intros Hraise. destruct (reaches_session self op) eqn:Hreach.
  - destruct (run_reaching self op w Hreach) as (rq & Hw & Hr).
    destruct (response_to self rq w) as [response|e] eqn:Hresp.
    + rewrite Hraise in Hr. unfold parsed in Hr.
      destruct (thing_of op) as [thing|] eqn:Hthing; [|discriminate].
      destruct (split_thing thing) as [[table record_id]|e] eqn:Hsplit; [|discriminate].
      destruct (checks_not_found op) eqn:Hcheck; simpl in Hr.
      * destruct (negb (truthy response)) eqn:Ht; simpl in Hr.
        -- destruct record_id as [id|]; simpl in Hr.
           ++ injection Hr as ->. apply negb_true_iff in Ht.
              exists thing, table, id, rq, response. repeat split; assumption.
           ++ pose proof (first_result_not_SurrealException response) as Hn.
              destruct (returns_unwrapped op); [|discriminate].
              now rewrite <- Hr in Hn.
        -- pose proof (first_result_not_SurrealException response) as Hn.
           destruct (returns_unwrapped op); [|discriminate].
           now rewrite <- Hr in Hn.
      * pose proof (first_result_not_SurrealException response) as Hn.
        destruct (returns_unwrapped op); [|discriminate].
        now rewrite <- Hr in Hn.
    + rewrite Hraise in Hr. injection Hr as <-.
      pose proof (response_to_not_SurrealException self rq w) as Hn.
      now rewrite Hresp in Hn.
  - rewrite (run_stopped self op w Hreach) in Hraise. discriminate.
Qed.

(** ** The shape of the response *)

(** X4.  On a thing that parses, with a login aiohttp accepts: when the
    decoded response is a list whose first element is an object with a
    ["result"] key, select, create, update and patch return that result,
    whether the thing names a record or a table and whatever follows the
    first envelope in the list. *)
Theorem only_first_envelope_counts (self : SurrealHTTP) (thing table : string)
    (record_id : option string) (data : PyVal) (auth : BasicAuth.t) (w : World)
    (entries : list (string * PyVal)) (rest : list PyVal) (v : PyVal) :
  split_thing thing = Ok (table, record_id) ->
  aiohttp_BasicAuth (_username self) (_password self) = Ok auth ->
  dict_get entries "result" = Some v ->
  let response := PList (PDict entries :: rest) in
  let body := Some (json_dumps float_repr false data) in
  let request method data := request_of self method (key_uri table record_id) data PNone auth in
  (response_to self (request "GET" None) w = Ok response -> fst (select self thing w) = Ok v)
  /\ (response_to self (request "POST" body) w = Ok response ->
      fst (create self thing data w) = Ok v)
  /\ (response_to self (request "PUT" body) w = Ok response ->
      fst (update self thing data w) = Ok v)
  /\ (response_to self (request "PATCH" body) w = Ok response ->
      fst (patch self thing data w) = Ok v).
Proof.
  intros Hsplit Hauth Hget response body request.
  assert (first_result response = Ok v) as Hfirst.
  { apply first_result_defined. now exists entries, rest. }
  rewrite (select_runs _ _ _ _ _ w Hsplit Hauth), (create_runs _ _ _ _ data _ w Hsplit Hauth),
    (update_runs _ _ _ _ data _ w Hsplit Hauth), (patch_runs _ _ _ _ data _ w Hsplit Hauth).
  cbn zeta. subst request body. cbn beta.
  repeat split; intros H; rewrite H; simpl; exact Hfirst.
Qed.

(** X5.  On a thing that parses, with a login aiohttp accepts: when the
    decoded response is a JSON object instead of a list of envelopes, update
    and patch raise KeyError for the key 0, and so do select and create,
    unless the object is empty and the thing names a record, where they raise
    the not-found SurrealException; delete returns the object. *)
Theorem object_response_raises_KeyError (self : SurrealHTTP) (thing table : string)
    (record_id : option string) (data : PyVal) (auth : BasicAuth.t) (w : World)
    (entries : list (string * PyVal)) :
  split_thing thing = Ok (table, record_id) ->
  aiohttp_BasicAuth (_username self) (_password self) = Ok auth ->
  let response := PDict entries in
  let body := Some (json_dumps float_repr false data) in
  let request method data := request_of self method (key_uri table record_id) data PNone auth in
  let checked : Result PyVal :=
    match entries, record_id with
    | [], Some id =>
        Raise (SurrealException ("Key " +:+ id +:+ " not found in table " +:+ table))
    | _, _ => Raise (KeyError (PInt 0))
    end in
  (response_to self (request "GET" None) w = Ok response ->
   fst (select self thing w) = checked)
  /\ (response_to self (request "POST" body) w = Ok response ->
      fst (create self thing data w) = checked)
  /\ (response_to self (request "PUT" body) w = Ok response ->
      fst (update self thing data w) = Raise (KeyError (PInt 0)))
  /\ (response_to self (request "PATCH" body) w = Ok response ->
      fst (patch self thing data w) = Raise (KeyError (PInt 0)))
  /\ (response_to self (request "DELETE" None) w = Ok response ->
      fst (delete self thing w) = Ok response).
Proof.
  intros Hsplit Hauth response body request checked.
  rewrite (select_runs _ _ _ _ _ w Hsplit Hauth), (create_runs _ _ _ _ data _ w Hsplit Hauth),
    (update_runs _ _ _ _ data _ w Hsplit Hauth), (patch_runs _ _ _ _ data _ w Hsplit Hauth),
    (delete_runs _ _ _ _ _ w Hsplit Hauth).
  cbn zeta. subst request body checked. cbn beta.
  repeat split; intros H; rewrite H; simpl; try reflexivity.
  - destruct entries, record_id; reflexivity.
  - destruct entries, record_id; reflexivity.
Qed.

(** ** Things *)

Lemma partition_first_found (c : ascii) (s before after : string) :
  partition_first c s = (before, Some after) ->
  s = before +:+ String c after /\ count c before = 0 /\ count c s = S (count c after).
Proof.
  revert before. induction s as [|a rest IH]; intros before; simpl; [discriminate|].
  destruct (Ascii.eqb a c) eqn:Hac.
  - apply Ascii.eqb_eq in Hac as ->. intros [= <- <-]. now repeat split.
  - destruct (partition_first c rest) as [b r] eqn:Hp. intros [= <- ->].
    destruct (IH b eq_refl) as (-> & Hb & Hc). simpl. rewrite Hac. now repeat split.
Qed.

Lemma partition_first_app (c : ascii) (before after : string) :
  count c before = 0 ->
  partition_first c (before +:+ String c after) = (before, Some after).
Proof.
  induction before as [|a rest IH]; simpl.
  - intros _. now rewrite Ascii.eqb_refl.
  - destruct (Ascii.eqb a c); [discriminate|]. intros H. now rewrite (IH H).
Qed.

Lemma contains_false_count (c : ascii) (s : string) :
  contains c s = false <-> count c s = 0.
Proof.
  rewrite contains_count. destruct (count c s); simpl; split; congruence.
Qed.

(** What a thing parses into, read both ways. *)
Lemma split_thing_spelled (thing table : string) (record_id : option string) :
  split_thing thing = Ok (table, record_id)
  <-> contains colon table = false
      /\ match record_id with
         | None => thing = table
         | Some id => contains colon id = false /\ thing = table +:+ ":" +:+ id
         end.
Proof.
  rewrite split_thing_cases. split.
  - destruct (count colon thing) as [|[|n]] eqn:Hc; simpl; [| |discriminate].
    + rewrite (partition_first_no_separator _ _ Hc). intros [= <- <-].
      split; [now apply contains_false_count|reflexivity].
    + intros [= Hp]. destruct record_id as [id|].
      * destruct (partition_first_found _ _ _ _ Hp) as (Hthing & Hb & Hcount).
        rewrite Hc in Hcount. injection Hcount as Hcount.
        split; [now apply contains_false_count|].
        split; [now apply contains_false_count|exact Hthing].
      * destruct (split_one_separator _ _ Hc) as (b & a & Hp' & _). congruence.
  - intros [Htable Hrest]. apply contains_false_count in Htable.
    destruct record_id as [id|].
    + destruct Hrest as [Hid ->]. apply contains_false_count in Hid.
      change (table +:+ ":" +:+ id) with (table +:+ String colon id).
      rewrite count_app. simpl. rewrite Htable, Hid. simpl.
      now rewrite (partition_first_app colon table id Htable).
    + subst thing. rewrite Htable. simpl.
      now rewrite (partition_first_no_separator _ _ Htable).
Qed.

(** X6.  A thing parses into a table alone exactly when it is that table
    and has no colon; it parses into a table and a record id exactly when
    it is the table, a colon and the id, and neither has a colon.  So the
    parts of a parsed thing spell the thing back, no part holds a colon,
    and a thing parses exactly when it has at most one colon. *)
Theorem thing_parses_iff (thing table : string) (record_id : option string) :
  (split_thing thing = Ok (table, record_id)
   <-> contains colon table = false
       /\ match record_id with
          | None => thing = table
          | Some id => contains colon id = false /\ thing = table +:+ ":" +:+ id
          end)
  /\ ((exists parts, split_thing thing = Ok parts) <-> count colon thing <= 1).
Proof.
  split; [apply split_thing_spelled|].
  rewrite split_thing_cases.
  destruct (Nat.leb_spec (count colon thing) 1) as [Hle|Hgt].
  - split; [intros _; exact Hle|]. intros _. now eexists.
  - split; [intros [parts Hp]; discriminate|lia].
Qed.

(** X7.  No part of a thing is escaped in the path.  For a table and a
    non-empty id without colons and a login aiohttp accepts, the thing
    [table/id] (a table, by its parse) sends the very request of the thing
    [table:id] (a record): delete, update and patch cannot tell them apart,
    and select and create differ only in that the not-found test applies to
    the second: each, on an empty response to its request, raises the
    not-found SurrealException for [table:id] and no SurrealException for
    [table/id]. *)
Theorem slash_thing_sends_the_record_request (self : SurrealHTTP) (table id : string)
    (data : PyVal) (auth : BasicAuth.t) (w : World) :
  contains colon table = false ->
  contains colon id = false ->
  truthy_opt (Some id) = true ->
  aiohttp_BasicAuth (_username self) (_password self) = Ok auth ->
  let by_slash := table +:+ "/" +:+ id in
  let by_colon := table +:+ ":" +:+ id in
  let not_found : Result PyVal :=
    Raise (SurrealException ("Key " +:+ id +:+ " not found in table " +:+ table)) in
  delete self by_slash w = delete self by_colon w
  /\ update self by_slash data w = update self by_colon data w
  /\ patch self by_slash data w = patch self by_colon data w
  /\ snd (select self by_slash w) = snd (select self by_colon w)
  /\ snd (create self by_slash data w) = snd (create self by_colon data w)
  /\ (forall response,
        response_to self
          (request_of self "GET" ("/key/" +:+ table +:+ "/" +:+ id) None PNone auth) w
        = Ok response ->
        truthy response = false ->
        is_SurrealException (fst (select self by_colon w)) = true
        /\ is_SurrealException (fst (select self by_slash w)) = false)
  /\ (forall response,
        response_to self
          (request_of self "GET" ("/key/" +:+ table +:+ "/" +:+ id) None PNone auth) w
        = Ok response ->
        truthy response = false ->
        fst (select self by_colon w) = not_found
        /\ fst (select self by_slash w) = first_result response)
  /\ (forall response,
        response_to self
          (request_of self "POST" ("/key/" +:+ table +:+ "/" +:+ id)
             (Some (json_dumps float_repr false data)) PNone auth) w
        = Ok response ->
        truthy response = false ->
        fst (create self by_colon data w) = not_found
        /\ fst (create self by_slash data w) = first_result response
        /\ is_SurrealException (fst (create self by_slash data w)) = false).
Proof.
  intros Htable Hid Hnonempty Hauth by_slash by_colon not_found.
  assert (split_thing by_colon = Ok (table, Some id)) as Hcolon.
  { apply split_thing_spelled. auto. }
  assert (split_thing by_slash = Ok (by_slash, None)) as Hslash.
  { apply split_thing_spelled. split; [|reflexivity].
    apply contains_false_count. unfold by_slash.
    change (table +:+ "/" +:+ id) with (table +:+ String "/" id).
    rewrite count_app. simpl.
    apply contains_false_count in Htable, Hid. now rewrite Htable, Hid. }
  assert (key_uri by_slash None = key_uri table (Some id)) as Huri.
  { unfold key_uri. rewrite Hnonempty. reflexivity. }
  rewrite (delete_runs _ _ _ _ _ w Hslash Hauth), (delete_runs _ _ _ _ _ w Hcolon Hauth),
    (update_runs _ _ _ _ data _ w Hslash Hauth), (update_runs _ _ _ _ data _ w Hcolon Hauth),
    (patch_runs _ _ _ _ data _ w Hslash Hauth), (patch_runs _ _ _ _ data _ w Hcolon Hauth),
    (select_runs _ _ _ _ _ w Hslash Hauth), (select_runs _ _ _ _ _ w Hcolon Hauth),
    (create_runs _ _ _ _ data _ w Hslash Hauth), (create_runs _ _ _ _ data _ w Hcolon Hauth).
  cbn zeta. rewrite Huri.
  do 5 (split; [reflexivity|]).
  assert (key_uri table (Some id) = "/key/" +:+ table +:+ "/" +:+ id) as Hk.
  { unfold key_uri. now rewrite Hnonempty. }
  rewrite Hk. split; [|split].
  - intros response Hresp Hfalsy. rewrite Hresp, Hfalsy. simpl.
    split; [reflexivity|apply first_result_not_SurrealException].
  - intros response Hresp Hfalsy. rewrite Hresp, Hfalsy. simpl. split; reflexivity.
  - intros response Hresp Hfalsy. rewrite Hresp, Hfalsy. simpl.
    split; [reflexivity|]. split; [reflexivity|apply first_result_not_SurrealException].
Qed.

(** ** Sessions *)

(** X8.  Two clients constructed without a session own two different
    sessions, both open, and a third client constructed on the first one's
    session shares it.  Closing the borrower changes nothing; closing the
    owner closes the session under the borrower too, leaves the second
    client's session open and leaves every session that existed before as
    it was. *)
Theorem owned_sessions_are_separate
    (url1 namespace1 database1 username1 password1 : string)
    (url2 namespace2 database2 username2 password2 : string) (w : World) :
  let first := __init__ url1 namespace1 database1 username1 password1 None w in
  let second := __init__ url2 namespace2 database2 username2 password2 None (snd first) in
  let w' := snd second in
  let owner := fst first in
  let other := fst second in
  let borrower :=
    fst (__init__ url1 namespace1 database1 username1 password1 (Some (_session owner)) w') in
  _session owner <> _session other
  /\ _session borrower = _session owner
  /\ sessions w' !! _session owner = Some Open
  /\ sessions w' !! _session other = Some Open
  /\ close borrower w' = (Ok tt, w')
  /\ sessions (snd (close owner w')) !! _session borrower = Some Closed
  /\ sessions (snd (close owner w')) !! _session other = Some Open
  /\ (forall (h : nat) (state : SessionState),
        sessions w !! h = Some state ->
        sessions (snd (close owner w')) !! h = Some state).
Proof.
  cbn zeta. unfold __init__, ClientSession, close, session_close. simpl.
  set (h1 := fresh (dom (sessions w))).
  set (h2 := fresh (dom (<[h1 := Open]> (sessions w)))).
  assert (sessions w !! h1 = None) as Hfresh1 by apply not_elem_of_dom, is_fresh.
  assert ((<[h1 := Open]> (sessions w)) !! h2 = None) as Hfresh2
    by apply not_elem_of_dom, is_fresh.
  assert (h1 <> h2) as Hne.
  { intros Heq. rewrite <- Heq, lookup_insert_eq in Hfresh2. discriminate. }
  split; [exact Hne|]. split; [reflexivity|].
  split; [now rewrite lookup_insert_ne, lookup_insert_eq by congruence|].
  split; [now rewrite lookup_insert_eq|].
  split; [reflexivity|].
  split; [now rewrite lookup_insert_eq|].
  split; [now rewrite lookup_insert_ne, lookup_insert_eq by congruence|].
  intros h state Hh.
  assert (h <> h1) as Hh1 by congruence.
  assert (h <> h2) as Hh2.
  { intros ->. rewrite lookup_insert_ne in Hfresh2 by exact Hne. congruence. }
  now rewrite !lookup_insert_ne by congruence.
Qed.

(** X9.  No method looks at the session before using it.  After an owning
    client has closed, a call still hands its request to the session, which
    the platform now sees closed; when the session refuses, the refusal is
    the call's exception. *)
Theorem calls_after_close_reach_the_closed_session (self : SurrealHTTP) (op : Operation)
    (w : World) :
  _should_close_session self = true ->
  reaches_session self op = true ->
  let w' := snd (close self w) in
  exists rq,
    snd (run self op w')
    = mkWorld (<[_session self := Closed]> (sessions w))
              ((_session self, rq) :: calls w)
              (fst (transport (net w) (Some Closed) rq))
    /\ (forall what,
          snd (transport (net w) (Some Closed) rq) = Failure what ->
          fst (run self op w') = Raise (TransportError what)).
Proof.
  intros Hown Hreach w'.
  destruct (run_reaching self op w' Hreach) as (rq & Hw & Hr).
  exists rq. unfold after_request, response_to in *.
  unfold w', close, session_close in *. rewrite Hown in *. simpl in *.
  rewrite lookup_insert_eq in *. split; [exact Hw|].
  intros what Hf. now rewrite Hf in Hr.
Qed.

(** X12.  The scoped use hides nothing of its block: whatever client is
    constructed and whatever the block is, [async with] returns the block's
    value or raises the block's exception, and the requests recorded and the
    remote end are those the block left; only the sessions may differ, by
    the close on exit. *)
Theorem scoped_use_propagates_outcome {A : Type}
    (url namespace database username password : string) (session : option nat)
    (body : SurrealHTTP -> M A) (w : World) :
  let made := __init__ url namespace database username password session w in
  let inside := body (fst made) (snd made) in
  let outside := async_with (__init__ url namespace database username password session) body w in
  fst outside = fst inside
  /\ calls (snd outside) = calls (snd inside)
  /\ net (snd outside) = net (snd inside)
  /\ sessions (snd outside)
     = if _should_close_session (fst made)
       then <[_session (fst made) := Closed]> (sessions (snd inside))
       else sessions (snd inside).
Proof.
  cbn zeta. unfold async_with, __aenter__, ret, __aexit__, close, session_close.
  destruct (__init__ url namespace database username password session w) as [mgr w1].
  simpl. destruct (body mgr w1) as [r w3].
  destruct (_should_close_session mgr); simpl; repeat split.
Qed.

(** ** Request bodies *)

Lemma printable_ascii_app (s t : string) :
  printable_ascii (s +:+ t) = printable_ascii s && printable_ascii t.
Proof.
  induction s as [|c rest IH]; simpl; [reflexivity|]. now rewrite IH, andb_assoc.
Qed.

Lemma escape_char_printable (c : ascii) : printable_ascii (escape_char true c) = true.
Proof. destruct c as [[] [] [] [] [] [] [] []]; reflexivity. Qed.

Lemma encode_str_printable (s : string) : printable_ascii (encode_str true s) = true.
Proof.
  assert (printable_ascii (escape true s) = true) as Hescape.
  { induction s as [|c rest IH]; simpl; [reflexivity|].
    now rewrite printable_ascii_app, escape_char_printable, IH. }
  unfold encode_str, quoted. rewrite !printable_ascii_app, Hescape. reflexivity.
Qed.

Lemma repr_int_printable (n : Z) : printable_ascii (repr_int n) = true.
Proof.
  assert (forall d, printable_ascii (NilEmpty.string_of_uint d) = true) as Hempty.
  { induction d; simpl; auto. }
  assert (forall d, printable_ascii (NilZero.string_of_uint d) = true) as Hzero.
  { intros d. destruct d; try apply Hempty. reflexivity. }
  unfold repr_int. destruct (Z.to_int n); simpl; auto.
Qed.

Lemma json_dumps_printable (float_text : float -> string) (o : PyVal) :
  (forall f, printable_ascii (float_text f) = true) ->
  printable_ascii (json_dumps float_text true o) = true.
Proof.
  intros Hfloat. revert o. fix IH 1. intros o.
  destruct o as [|b|n|f|s|items|entries]; simpl.
  - reflexivity.
  - destruct b; reflexivity.
  - apply repr_int_printable.
  - unfold floatstr.
    destruct (negb (PrimFloat.eqb f f)); [reflexivity|].
    destruct (PrimFloat.eqb f infinity); [reflexivity|].
    destruct (PrimFloat.eqb f neg_infinity); [reflexivity|]. apply Hfloat.
  - apply encode_str_printable.
  - rewrite !printable_ascii_app.
    match goal with |- _ && (printable_ascii ?body && _) = _ =>
      assert (printable_ascii body = true) as ->; [|reflexivity] end.
    induction items as [|x rest IHrest]; [reflexivity|].
    destruct rest as [|y rest']; [apply IH|].
    rewrite !printable_ascii_app, IH, IHrest. reflexivity.
  - rewrite !printable_ascii_app.
    match goal with |- _ && (printable_ascii ?body && _) = _ =>
      assert (printable_ascii body = true) as ->; [|reflexivity] end.
    induction entries as [|[k v] rest IHrest]; [reflexivity|].
    destruct rest as [|y rest'].
    + rewrite !printable_ascii_app, encode_str_printable, IH. reflexivity.
    + rewrite !printable_ascii_app, encode_str_printable, IH, IHrest. reflexivity.
Qed.

(** X10.  signup and signin encode their variables with [json.dumps] as it
    is by default: whatever the variables, the body they send consists of
    printable ASCII characters only (given that the text of a float does),
    every other character of a str being written as an escape. *)
Theorem signup_signin_bodies_are_ascii (self : SurrealHTTP) (vars : PyVal)
    (auth : BasicAuth.t) (w : World) :
  (forall f, printable_ascii (float_repr f) = true) ->
  aiohttp_BasicAuth (_username self) (_password self) = Ok auth ->
  exists body,
    printable_ascii body = true
    /\ calls (snd (signup self vars w))
       = (_session self,
          Request.Build "POST" (_url self +:+ "/signup") (Some body) PNone
            (make_headers self) auth) :: calls w
    /\ calls (snd (signin self vars w))
       = (_session self,
          Request.Build "POST" (_url self +:+ "/signin") (Some body) PNone
            (make_headers self) auth) :: calls w.
Proof.
  intros Hfloat Hauth. exists (json_dumps float_repr true vars).
  split; [now apply json_dumps_printable|].
  rewrite (signup_runs _ _ _ _ Hauth), (signin_runs _ _ _ _ Hauth). split; reflexivity.
Qed.

Lemma escape_unescaped (s : string) : all_unescaped s = true -> escape false s = s.
Proof.
  induction s as [|c rest IH]; simpl; [reflexivity|].
  intros H. apply andb_true_iff in H as [Hc Hrest]. rewrite (IH Hrest).
  unfold unescaped in Hc. apply andb_true_iff in Hc as [Hc Hb].
  apply andb_true_iff in Hc as [Hn Hq].
  apply negb_true_iff in Hb, Hq. apply N.leb_le in Hn.
  unfold escape_char. rewrite Hb, Hq. simpl.
  destruct (N.eqb_spec (N_of_ascii c) 8) as [E|_]; [lia|].
  destruct (N.eqb_spec (N_of_ascii c) 12) as [E|_]; [lia|].
  destruct (N.eqb_spec (N_of_ascii c) 10) as [E|_]; [lia|].
  destruct (N.eqb_spec (N_of_ascii c) 13) as [E|_]; [lia|].
  destruct (N.eqb_spec (N_of_ascii c) 9) as [E|_]; [lia|].
  destruct (N.ltb_spec (N_of_ascii c) 32) as [E|_]; [lia|]. reflexivity.
Qed.

(** X11.  create, update and patch encode their data with
    [ensure_ascii=False]: a str without control character, quote or
    backslash is sent as it is between two quotes, characters above ASCII
    included, for a thing that parses and a login aiohttp accepts. *)
Theorem key_methods_send_text_unescaped (self : SurrealHTTP) (thing table : string)
    (record_id : option string) (text : string) (auth : BasicAuth.t) (w : World) :
  split_thing thing = Ok (table, record_id) ->
  aiohttp_BasicAuth (_username self) (_password self) = Ok auth ->
  all_unescaped text = true ->
  let sent method :=
    (_session self,
     Request.Build method (_url self +:+ key_uri table record_id) (Some (quoted text)) PNone
       (make_headers self) auth) in
  calls (snd (create self thing (PStr text) w)) = sent "POST" :: calls w
  /\ calls (snd (update self thing (PStr text) w)) = sent "PUT" :: calls w
  /\ calls (snd (patch self thing (PStr text) w)) = sent "PATCH" :: calls w.
Proof.
  intros Hsplit Hauth Htext sent.
  rewrite (create_runs _ _ _ _ _ _ w Hsplit Hauth), (update_runs _ _ _ _ _ _ w Hsplit Hauth),
    (patch_runs _ _ _ _ _ _ w Hsplit Hauth).
  cbn zeta. subst sent. simpl. unfold encode_str, request_of.
  rewrite (escape_unescaped _ Htext). repeat split.
Qed.

End Coverage.

(** * The further properties on the example platforms *)

(** A select against a host that cannot be reached, a query answered with
    a text that is not JSON. *)
Lemma transport_and_decode_errors_propagate_witness :
  reaches_session db3 (Select "person:tobie") = true
  /\ fst (run db3 (Select "person:tobie") w3) = Raise (TransportError "Cannot connect to host")
  /\ fst (run db4 (Query "select 1" PNone) w4) = Raise JSONDecodeError.
Proof.
  split; [reflexivity|]. split.
  - destruct (transport_and_decode_errors_propagate (platform := unreachable_platform)
                db3 (Select "person:tobie") w3 eq_refl) as (rq & _ & Hfail & _).
    exact (Hfail "Cannot connect to host" eq_refl).
  - destruct (transport_and_decode_errors_propagate (platform := garbled_platform)
                db4 (Query "select 1" PNone) w4 eq_refl) as (rq & _ & _ & Hjson).
    exact (Hjson "<html>" eq_refl eq_refl).
Defined.

(** The select of a missing record, answered with an empty list. *)
Lemma not_found_only_from_select_and_create_witness :
  fst (run db0 (Select "person:missing") w0)
    = Raise (SurrealException "Key missing not found in table person")
  /\ exists thing table id rq response,
       thing_of (Select "person:missing") = Some thing
       /\ checks_not_found (Select "person:missing") = true
       /\ split_thing thing = Ok (table, Some id)
       /\ "Key missing not found in table person"
          = "Key " +:+ id +:+ " not found in table " +:+ table
       /\ snd (run db0 (Select "person:missing") w0) = after_request db0 rq w0
       /\ response_to db0 rq w0 = Ok response
       /\ truthy response = false.
Proof.
  split; [reflexivity|].
  exact (not_found_only_from_select_and_create (platform := empty_list_platform)
           db0 (Select "person:missing") w0 "Key missing not found in table person" eq_refl).
Defined.

(** The four unwrapping methods on a record, answered with one envelope. *)
Lemma only_first_envelope_counts_witness :
  fst (select db1 "person:tobie" w1) = Ok (PList [])
  /\ fst (create db1 "person:tobie" tobie w1) = Ok (PList [])
  /\ fst (update db1 "person:tobie" tobie w1) = Ok (PList [])
  /\ fst (patch db1 "person:tobie" tobie w1) = Ok (PList []).
Proof.
  destruct (only_first_envelope_counts (platform := envelope_platform)
              db1 "person:tobie" "person" (Some "tobie") tobie root_auth w1
              [("time", PStr "1ms"); ("status", PStr "OK"); ("result", PList [])] []
              (PList []) eq_refl eq_refl eq_refl) as (Hs & Hc & Hu & Hp).
  split; [exact (Hs eq_refl)|]. split; [exact (Hc eq_refl)|].
  split; [exact (Hu eq_refl)|exact (Hp eq_refl)].
Defined.

(** The five key methods on a record, answered with a JSON object. *)
Lemma object_response_raises_KeyError_witness :
  fst (select db2 "person:tobie" w2) = Raise (KeyError (PInt 0))
  /\ fst (create db2 "person:tobie" tobie w2) = Raise (KeyError (PInt 0))
  /\ fst (update db2 "person:tobie" tobie w2) = Raise (KeyError (PInt 0))
  /\ fst (patch db2 "person:tobie" tobie w2) = Raise (KeyError (PInt 0))
  /\ fst (delete db2 "person:tobie" w2) = Ok refusal.
Proof.
  destruct (object_response_raises_KeyError (platform := refusal_platform)
              db2 "person:tobie" "person" (Some "tobie") tobie root_auth w2
              [("code", PInt 400);
               ("information", PStr "There is a problem with your request")]
              eq_refl eq_refl) as (Hs & Hc & Hu & Hp & Hd).
  split; [exact (Hs eq_refl)|]. split; [exact (Hc eq_refl)|].
  split; [exact (Hu eq_refl)|]. split; [exact (Hp eq_refl)|exact (Hd eq_refl)].
Defined.

(** The things [person/tobie] and [person:tobie], answered with an empty
    list. *)
Lemma slash_thing_sends_the_record_request_witness :
  delete db0 "person/tobie" w0 = delete db0 "person:tobie" w0
  /\ snd (select db0 "person/tobie" w0) = snd (select db0 "person:tobie" w0)
  /\ snd (create db0 "person/tobie" tobie w0) = snd (create db0 "person:tobie" tobie w0)
  /\ fst (select db0 "person:tobie" w0)
     = Raise (SurrealException "Key tobie not found in table person")
  /\ fst (select db0 "person/tobie" w0) = Raise IndexError
  /\ fst (create db0 "person:tobie" tobie w0)
     = Raise (SurrealException "Key tobie not found in table person")
  /\ fst (create db0 "person/tobie" tobie w0) = Raise IndexError.
Proof.
  destruct (slash_thing_sends_the_record_request (platform := empty_list_platform)
              db0 "person" "tobie" tobie root_auth w0 eq_refl eq_refl eq_refl eq_refl)
    as (Hd & _ & _ & Hs & Hc & _ & Hselect & Hcreate).
  destruct (Hselect (PList []) eq_refl eq_refl) as [Hs1 Hs2].
  destruct (Hcreate (PList []) eq_refl eq_refl) as (Hc1 & Hc2 & _).
  split; [exact Hd|]. split; [exact Hs|]. split; [exact Hc|].
  split; [exact Hs1|]. split; [exact Hs2|]. split; [exact Hc1|exact Hc2].
Defined.

(** A select after the close of an owning client, on a platform whose
    closed sessions refuse. *)
Lemma calls_after_close_reach_the_closed_session_witness :
  _should_close_session db5 = true
  /\ fst (run db5 (Select "person") w5) = Raise IndexError
  /\ fst (run db5 (Select "person") (snd (close db5 w5)))
     = Raise (TransportError "Session is closed").
Proof.
  split; [reflexivity|]. split; [reflexivity|].
  destruct (calls_after_close_reach_the_closed_session (platform := guarded_platform)
              db5 (Select "person") w5 eq_refl eq_refl) as (rq & _ & Hfail).
  exact (Hfail "Session is closed" eq_refl).
Defined.

(** A signup whose password has a character above ASCII. *)
Lemma signup_signin_bodies_are_ascii_witness :
  let vars := PDict [("user", PStr "bob"); ("pass", PStr (String "233" "t"))] in
  json_dumps (@float_repr empty_list_platform) true vars
    = "{" +:+ quoted "user" +:+ ": " +:+ quoted "bob" +:+ ", " +:+ quoted "pass" +:+ ": "
      +:+ quoted (char backslash +:+ "u00e9t") +:+ "}"
  /\ exists body,
       printable_ascii body = true
       /\ calls (snd (signup db0 vars w0))
          = [(_session db0,
              Request.Build "POST" "http://localhost:8000/signup" (Some body) PNone
                identity_headers root_auth)]
       /\ calls (snd (signin db0 vars w0))
          = [(_session db0,
              Request.Build "POST" "http://localhost:8000/signin" (Some body) PNone
                identity_headers root_auth)].
Proof.
  split; [reflexivity|].
  exact (signup_signin_bodies_are_ascii (platform := empty_list_platform)
           db0 (PDict [("user", PStr "bob"); ("pass", PStr (String "233" "t"))])
           root_auth w0 (fun _ => eq_refl) eq_refl).
Defined.

(** An update with a text that has a character above ASCII. *)
Lemma key_methods_send_text_unescaped_witness :
  all_unescaped (String "233" "t") = true
  /\ calls (snd (update db0 "person:tobie" (PStr (String "233" "t")) w0))
     = [(_session db0,
         Request.Build "PUT" "http://localhost:8000/key/person/tobie"
           (Some (quoted (String "233" "t"))) PNone identity_headers root_auth)].
Proof.
  split; [reflexivity|].
  destruct (key_methods_send_text_unescaped (platform := empty_list_platform)
              db0 "person:tobie" "person" (Some "tobie") (String "233" "t") root_auth w0
              eq_refl eq_refl eq_refl) as (_ & Hu & _).
  exact Hu.
Defined.
